(** * Interactive GTFS map: a shallow embedding of the display layer and of
  the timetable contract of the data it consumes.

  The TypeScript sources embedded here are [lib/types.ts], [lib/utils.ts],
  [lib/dataLoader.ts], [context/TransitContext.tsx], [app/page.tsx] and
  the components of the map, the sidebar and the search box.  JavaScript
  strings are [string]; a [Record<string, T>] object is the [gmap string T]
  of its own properties, read through [Js.get], which also finds the
  members every plain object inherits; [Set<string>] is [gset string],
  [null]/[undefined] is [None], a settled promise is a sum, and
  module-level mutable variables are threaded explicitly through the
  functions that touch them.  Where a function can throw, a total
  function gives what it returns and a predicate tells where it throws
  instead. *)

From Stdlib Require Import ZArith QArith Ascii String.
From stdpp Require Import gmap strings list fin_maps sorting pretty.

Open Scope string_scope.
Open Scope Z_scope.

(* ===================================================================== *)
(** ** lib/types.ts *)
(* ===================================================================== *)

Module Types.

(** [type TransitType = 'metro' | 'rail' | 'bus'] *)
Inductive TransitType := metro | rail | bus.

#[global] Instance TransitType_eq_dec : EqDecision TransitType.
Proof. solve_decision. Defined.

(** [type AgencyCode = 'HMRL' | 'MMTS' | 'TGSRTC'] *)
Inductive AgencyCode := HMRL | MMTS | TGSRTC.

#[global] Instance AgencyCode_eq_dec : EqDecision AgencyCode.
Proof. solve_decision. Defined.

(** The string an [AgencyCode] is at run time. *)
Definition AgencyCode_str (a : AgencyCode) : string :=
  match a with
  | HMRL => "HMRL"
  | MMTS => "MMTS"
  | TGSRTC => "TGSRTC"
  end.

(** A JavaScript [number] that the embedded code only stores, swaps or
    adds small integers to. *)
Abbreviation number := Q.

Record GeoJSONPoint := {
  point_coordinates : number * number   (* [longitude, latitude] *)
}.

(** [coordinates] is declared non-optional, but [RoutePolyline] guards
    against its absence, so the field is optional here. *)
Record GeoJSONLineString := {
  coordinates : option (list (number * number))
}.

Record StopProperties := {
  stop_id : string;
  stop_name : string;
  stop_agency : string;
  transit_type : TransitType;
  routes : list string;
  route_count : Z;
  first_time : string;
  last_time : string
}.

Record RouteProperties := {
  route_id : string;
  name : string;
  short_name : string;
  long_name : string;
  type : Z;
  type_name : string;
  agency : string;
  color : string;
  text_color : string;
  stops : list string;
  stop_count : Z
}.

Record StopFeature := {
  stop_geometry : GeoJSONPoint;
  stop_properties : StopProperties
}.

(** As for [coordinates], the guard in [RoutePolyline] allows a feature
    without geometry. *)
Record RouteFeature := {
  geometry : option GeoJSONLineString;
  properties : RouteProperties
}.

(** [GeoJSONFeatureCollection<F>] *)
Record FeatureCollection (F : Type) := { features : list F }.
Arguments features {F} _.
Arguments Build_FeatureCollection {F} _.

Abbreviation StopsGeoJSON := (FeatureCollection StopFeature).
Abbreviation RoutesGeoJSON := (FeatureCollection RouteFeature).

Record RouteStopInfo := {
  rs_stop_id : string;
  rs_name : string;
  seq : Z
}.

Record TimetableEntry := {
  weekday : list string;
  weekend : list string
}.

(** The statistics blob; no embedded function looks inside it. *)
Record Metadata := {
  generated_at : string;
  version : string;
  city : string;
  totals_stops : Z;
  totals_routes : Z
}.

Record TransitData := {
  td_stops : StopsGeoJSON;
  td_routes : RoutesGeoJSON;
  stopToRoutes : gmap string (list string);
  routeToStops : gmap string (list RouteStopInfo);
  timetable : gmap string (gmap string TimetableEntry);
  metadata : Metadata
}.

Record FilterState := {
  f_metro : bool;
  f_rail : bool;
  f_bus : bool
}.

Record SelectionState := {
  selectedStop : option string;
  selectedRoute : option string;
  highlightedRoutes : list string
}.

Record RouteLineOptions := {
  line_color : string;
  line_weight : Z;
  line_opacity : number;
  dashArray : option string
}.

(** The string a [TransitType] is at run time. *)
Definition TransitType_str (t : TransitType) : string :=
  match t with
  | metro => "metro"
  | rail => "rail"
  | bus => "bus"
  end.

End Types.

(* ===================================================================== *)
(** ** JavaScript string primitives used by lib/utils.ts *)
(* ===================================================================== *)

Module Js.

(** Truthiness of a string: only the empty string is falsy. *)
Definition truthy (s : string) : bool :=
  match s with
  | EmptyString => false
  | String _ _ => true
  end.

(** Truthiness of [string | null]. *)
Definition truthy_opt (o : option string) : bool :=
  match o with
  | None => false
  | Some s => truthy s
  end.

(** A plain object (an object literal, or an object that [JSON.parse]
    built) inherits the members of [Object.prototype] under these names.
    Each is a function, except [__proto__], which reads as the prototype
    object itself: all are truthy, none is iterable, and none has a
    [map] or a [forEach] method. *)
Definition Object_prototype_names : list string :=
  ["constructor"; "__defineGetter__"; "__defineSetter__"; "hasOwnProperty";
   "__lookupGetter__"; "__lookupSetter__"; "isPrototypeOf";
   "propertyIsEnumerable"; "toString"; "valueOf"; "__proto__";
   "toLocaleString"].

Definition inherited (key : string) : bool :=
  bool_decide (key ∈ Object_prototype_names).

(** What [o[key]] finds on a plain object: the value of an own property,
    a member inherited from [Object.prototype], or [undefined]. *)
Inductive Property (T : Type) :=
| Own (value : T)
| Inherited
| Undefined.
Arguments Own {T} _.
Arguments Inherited {T}.
Arguments Undefined {T}.

(** [o[key]] on the plain object whose own properties are the entries of
    [o]. *)
Definition get {T : Type} (o : gmap string T) (key : string) : Property T :=
  match o !! key with
  | Some value => Own value
  | None => if inherited key then Inherited else Undefined
  end.

(** [o[key] || []] on an object of arrays is not an array: it is an
    inherited member, and [new Set(...)], [.map(...)] or [.forEach(...)]
    on it throws a TypeError.  An own array is truthy, the empty one
    too. *)
Definition not_an_array {T : Type} (o : gmap string (list T)) (key : string)
  : bool :=
  match get o key with
  | Inherited => true
  | Own _ | Undefined => false
  end.

(** [s.split(sep)] for a one-character separator: the pieces between the
    occurrences of [sep], always at least one piece. *)
Fixpoint split (sep : ascii) (s : string) : list string :=
  match s with
  | EmptyString => [EmptyString]
  | String c s' =>
      if Ascii.eqb c sep then EmptyString :: split sep s'
      else match split sep s' with
           | piece :: pieces => String c piece :: pieces
           | [] => [String c EmptyString]
           end
  end.

(** [pieces.join(sep)] *)
Fixpoint join (sep : string) (pieces : list string) : string :=
  match pieces with
  | [] => EmptyString
  | [p] => p
  | p :: rest => p +:+ sep +:+ join sep rest
  end.

(** The string methods below work on UTF-16 code units; a [string] here is
    a sequence of code units below 256 (Basic Latin and Latin-1). *)

(** [toLowerCase] on one code unit: A-Z and the Latin-1 capitals
    (U+00C0 to U+00DE except the multiplication sign U+00D7) move up by 32. *)
Definition toLowerCase_unit (c : ascii) : ascii :=
  let n := N_of_ascii c in
  if ((65 <=? n) && (n <=? 90)
      || (192 <=? n) && (n <=? 222) && negb (n =? 215))%N
  then ascii_of_N (n + 32) else c.

(** [s.toLowerCase()] *)
Fixpoint toLowerCase (s : string) : string :=
  match s with
  | EmptyString => EmptyString
  | String c s' => String (toLowerCase_unit c) (toLowerCase s')
  end.

(** The code units [trim] strips: TAB, LF, VT, FF, CR, SPACE and NBSP. *)
Definition isWhiteSpace (c : ascii) : bool :=
  let n := N_of_ascii c in
  ((9 <=? n) && (n <=? 13) || (n =? 32) || (n =? 160))%N.

(** [s.trimStart()] *)
Fixpoint trimStart (s : string) : string :=
  match s with
  | EmptyString => EmptyString
  | String c s' => if isWhiteSpace c then trimStart s' else s
  end.

(** [s.trimEnd()] *)
Fixpoint trimEnd (s : string) : string :=
  match s with
  | EmptyString => EmptyString
  | String c s' =>
      match trimEnd s' with
      | EmptyString => if isWhiteSpace c then EmptyString
                       else String c EmptyString
      | String d rest => String c (String d rest)
      end
  end.

(** [s.trim()] *)
Definition trim (s : string) : string := trimEnd (trimStart s).

(** [text.includes(search)]: [search] starts at some position of [text]. *)
Fixpoint includes (text search : string) : bool :=
  String.prefix search text
  || match text with
     | EmptyString => false
     | String _ text' => includes text' search
     end.

(** One step of a stable sort: [x] goes before the first element it does
    not compare greater than. *)
Fixpoint sort_insert {A : Type} (cmp : A -> A -> Z) (x : A) (l : list A) : list A :=
  match l with
  | [] => [x]
  | y :: l' => if (cmp x y <=? 0)%Z then x :: y :: l'
               else y :: sort_insert cmp x l'
  end.

(** [[...items].sort(cmp)] for a comparator that orders by a key:
    [Array.prototype.sort] is stable, which fixes its result; it is
    computed here by insertion from the right. *)
Definition sort {A : Type} (cmp : A -> A -> Z) (items : list A) : list A :=
  foldr (sort_insert cmp) [] items.

(** [String(n)] for a number that is an integer. *)
Definition number_toString (n : Z) : string := pretty n.

End Js.

(* ===================================================================== *)
(** ** lib/utils.ts *)
(* ===================================================================== *)

Module Utils.
Import Types.

Definition TRANSIT_COLORS (t : TransitType) : string :=
  match t with
  | metro => "#E91E63"
  | rail => "#9C27B0"
  | bus => "#FFC107"
  end.

(** [TRANSIT_ICONS[key]] for a run-time string key. *)
Definition TRANSIT_ICONS (key : string) : Js.Property string :=
  if String.eqb key "metro" then Js.Own "metro"
  else if String.eqb key "rail" then Js.Own "train"
  else if String.eqb key "bus" then Js.Own "airport_shuttle"
  else if Js.inherited key then Js.Inherited
  else Js.Undefined.

(** The [switch] runs on the run-time string, so the argument is a string
    here; [None] is an absent [color]. *)
Definition getRouteLineOptions (transitType : string) (color : option string)
  : RouteLineOptions :=
  if String.eqb transitType "metro" then
    {| line_color := if Js.truthy_opt color then default "" color
                     else TRANSIT_COLORS metro;
       line_weight := 5; line_opacity := 9 # 10; dashArray := None |}
  else if String.eqb transitType "rail" then
    {| line_color := TRANSIT_COLORS rail;
       line_weight := 4; line_opacity := 8 # 10; dashArray := Some "10, 5" |}
  else if String.eqb transitType "bus" then
    {| line_color := TRANSIT_COLORS bus;
       line_weight := 2; line_opacity := 6 # 10; dashArray := None |}
  else
    {| line_color := if Js.truthy_opt color then default "" color
                     else "#888888";
       line_weight := 3; line_opacity := 7 # 10; dashArray := None |}.

(** The parameter is typed [AgencyCode], which is erased at run time: the
    [default] branch answers every other string. *)
Definition getAgencyTransitType (agency : string) : TransitType :=
  if String.eqb agency "HMRL" then metro
  else if String.eqb agency "MMTS" then rail
  else if String.eqb agency "TGSRTC" then bus
  else bus.

Definition formatTime (time : string) : string :=
  if negb (Js.truthy time) then "--:--" else time.

Definition formatTimeRange (first last : string) : string :=
  if negb (Js.truthy first) || negb (Js.truthy last)
  then "Schedule not available"
  else formatTime first +:+ " - " +:+ formatTime last.

Definition getDataPath (filename : string) : string :=
  "/data/" +:+ filename.

(** [agency] is [None] when the destructured array has no first element,
    which [split] never produces. *)
Record ParsedId := {
  parsed_agency : option string;
  originalId : string
}.

Definition parseStopId (prefixedId : string) : ParsedId :=
  match Js.split "_" prefixedId with
  | agency :: rest =>
      {| parsed_agency := Some agency; originalId := Js.join "_" rest |}
  | [] => {| parsed_agency := None; originalId := Js.join "_" [] |}
  end.

Definition parseRouteId (prefixedId : string) : ParsedId :=
  match Js.split "_" prefixedId with
  | agency :: rest =>
      {| parsed_agency := Some agency; originalId := Js.join "_" rest |}
  | [] => {| parsed_agency := None; originalId := Js.join "_" [] |}
  end.

Definition TRANSIT_LABELS (t : TransitType) : string :=
  match t with
  | metro => "Metro Rail"
  | rail => "MMTS Rail"
  | bus => "City Bus"
  end.

Record StopMarkerOptions := {
  marker_color : string;
  marker_radius : Z;
  marker_weight : Z;
  marker_fillOpacity : number
}.

(** The [default] branch is for values outside [TransitType]. *)
Definition getStopMarkerOptions (transitType : TransitType) : StopMarkerOptions :=
  match transitType with
  | metro => {| marker_color := TRANSIT_COLORS metro; marker_radius := 8;
                marker_weight := 2; marker_fillOpacity := 8 # 10 |}
  | rail => {| marker_color := TRANSIT_COLORS rail; marker_radius := 7;
               marker_weight := 2; marker_fillOpacity := 8 # 10 |}
  | bus => {| marker_color := TRANSIT_COLORS bus; marker_radius := 4;
              marker_weight := 1; marker_fillOpacity := 8 # 10 |}
  end.

Definition normalizeSearchString (str : string) : string :=
  Js.trim (Js.toLowerCase str).

Definition matchesSearch (text query : string) : bool :=
  let normalizedText := normalizeSearchString text in
  let normalizedQuery := normalizeSearchString query in
  Js.includes normalizedText normalizedQuery.

(** [order.indexOf(t)] for [order = ['metro', 'rail', 'bus']]. *)
Definition order_indexOf (t : TransitType) : Z :=
  match t with
  | metro => 0
  | rail => 1
  | bus => 2
  end.

(** Generic in the item type [T extends { transit_type: TransitType }]. *)
Definition sortByTransitType {T : Type} (transit_type_of : T -> TransitType)
  (items : list T) : list T :=
  Js.sort (fun a b => order_indexOf (transit_type_of a)
                      - order_indexOf (transit_type_of b)) items.

End Utils.

(* ===================================================================== *)
(** ** lib/dataLoader.ts *)
(* ===================================================================== *)

Module DataLoader.
Import Types.

(** The value a promise rejects with.  The provider reads the [message]
    of a value that is an [Error]: the one [fetchJson] throws, the
    TypeError of a [fetch] that fails, the SyntaxError of a body that is
    not JSON.  Of any other value it reads nothing. *)
Inductive Reason :=
| ErrorObject (message : string)
| OtherValue.

(** A promise once settled: rejected with a reason, or fulfilled with a
    value. *)
Abbreviation Promise T := (Reason + T)%type.

Definition await {A B : Type} (p : Promise A) (k : A -> Promise B) : Promise B :=
  match p with
  | inl e => inl e
  | inr a => k a
  end.

(** A response: the [ok] flag, the status text, and what the promise
    [response.json()] settles to. *)
Record Response (T : Type) := {
  ok : bool;
  statusText : string;
  json : Promise T
}.
Arguments ok {T} _.
Arguments statusText {T} _.
Arguments json {T} _.

(** The six data files, in the order of the array given to
    [Promise.all]. *)
Inductive DataFile :=
| StopsFile
| RoutesFile
| StopToRoutesFile
| RouteToStopsFile
| TimetableFile
| MetadataFile.

#[global] Instance DataFile_eq_dec : EqDecision DataFile.
Proof. solve_decision. Defined.

Definition files : list DataFile :=
  [StopsFile; RoutesFile; StopToRoutesFile; RouteToStopsFile; TimetableFile;
   MetadataFile].

(** The static host and the network between: what [fetch] settles to for
    each of the six data paths, and the time at which the [fetchJson]
    promise of each file settles. *)
Record Server := {
  stops_geojson : Promise (Response StopsGeoJSON);
  routes_geojson : Promise (Response RoutesGeoJSON);
  stop_to_routes_json : Promise (Response (gmap string (list string)));
  route_to_stops_json : Promise (Response (gmap string (list RouteStopInfo)));
  timetable_json : Promise (Response (gmap string (gmap string TimetableEntry)));
  metadata_json : Promise (Response Metadata);
  settled_at : DataFile -> nat
}.

(** [fetchJson] rejects when [fetch] rejects, when the response is not
    [ok], and when [response.json()] rejects. *)
Definition fetchJson {T : Type} (filename : string)
  (fetched : Promise (Response T)) : Promise T :=
  await fetched (fun response =>
    if negb (ok response)
    then inl (ErrorObject ("Failed to fetch " +:+ filename +:+ ": "
                           +:+ statusText response))
    else json response).

(** The reason a promise rejected with, if it did. *)
Definition rejected {T : Type} (p : Promise T) : option Reason :=
  match p with
  | inl reason => Some reason
  | inr _ => None
  end.

(** The reason the [fetchJson] promise of a file rejects with, if it
    does. *)
Definition rejection (srv : Server) (file : DataFile) : option Reason :=
  match file with
  | StopsFile => rejected (fetchJson "stops.geojson" (stops_geojson srv))
  | RoutesFile => rejected (fetchJson "routes.geojson" (routes_geojson srv))
  | StopToRoutesFile =>
      rejected (fetchJson "stop_to_routes.json" (stop_to_routes_json srv))
  | RouteToStopsFile =>
      rejected (fetchJson "route_to_stops.json" (route_to_stops_json srv))
  | TimetableFile => rejected (fetchJson "timetable.json" (timetable_json srv))
  | MetadataFile => rejected (fetchJson "metadata.json" (metadata_json srv))
  end.

(** Between the rejecting file found so far and the next file of the
    array: the one whose promise settles first. *)
Definition sooner (srv : Server) (best : option DataFile) (file : DataFile)
  : option DataFile :=
  match rejection srv file, best with
  | None, _ => best
  | Some _, None => Some file
  | Some _, Some b =>
      if (settled_at srv file <? settled_at srv b)%nat then Some file else best
  end.

(** [Promise.all] rejects with the reason of the first of its promises to
    reject: the file, among those whose promise rejects, that settles
    first. *)
Definition first_rejected (srv : Server) : option DataFile :=
  foldl (sooner srv) None files.

(** [loadTransitData] against the module variable [cachedData], which is
    passed in and returned.  When the six promises fulfil, [Promise.all]
    fulfils with their values; when one rejects, it rejects with the
    reason of the first to reject.  A rejection leaves [cachedData] as it
    was. *)
Definition loadTransitData (srv : Server) (cachedData : option TransitData)
  : Promise TransitData * option TransitData :=
  match cachedData with
  | Some d => (inr d, cachedData)
  | None =>
      let fulfilled :=
        await (fetchJson "stops.geojson" (stops_geojson srv)) (fun stops =>
        await (fetchJson "routes.geojson" (routes_geojson srv)) (fun routes =>
        await (fetchJson "stop_to_routes.json" (stop_to_routes_json srv)) (fun s2r =>
        await (fetchJson "route_to_stops.json" (route_to_stops_json srv)) (fun r2s =>
        await (fetchJson "timetable.json" (timetable_json srv)) (fun tt =>
        await (fetchJson "metadata.json" (metadata_json srv)) (fun md =>
        inr {| td_stops := stops; td_routes := routes;
               stopToRoutes := s2r; routeToStops := r2s;
               timetable := tt; metadata := md |})))))) in
      match fulfilled with
      | inr d => (inr d, Some d)
      | inl in_array_order =>
          (inl (default in_array_order (first_rejected srv ≫= rejection srv)),
           cachedData)
      end
  end.

Definition loadStopsOnly (srv : Server) : Promise StopsGeoJSON :=
  fetchJson "stops.geojson" (stops_geojson srv).

Definition loadRoutesOnly (srv : Server) : Promise RoutesGeoJSON :=
  fetchJson "routes.geojson" (routes_geojson srv).

Definition loadMetadata (srv : Server) : Promise Metadata :=
  fetchJson "metadata.json" (metadata_json srv).

Definition clearCache (cachedData : option TransitData) : option TransitData :=
  None.

Definition isDataLoaded (cachedData : option TransitData) : bool :=
  match cachedData with
  | Some _ => true
  | None => false
  end.

Definition getCachedData (cachedData : option TransitData) : option TransitData :=
  cachedData.

(** The module's exported functions, as calls a client can make. *)
Inductive LoaderCall :=
| CallLoadTransitData
| CallLoadStopsOnly
| CallLoadRoutesOnly
| CallLoadMetadata
| CallClearCache
| CallIsDataLoaded
| CallGetCachedData.

(** The value of [cachedData] after one call. *)
Definition cache_after (srv : Server) (call : LoaderCall)
  (cachedData : option TransitData) : option TransitData :=
  match call with
  | CallLoadTransitData => snd (loadTransitData srv cachedData)
  | CallClearCache => clearCache cachedData
  | CallLoadStopsOnly | CallLoadRoutesOnly | CallLoadMetadata
  | CallIsDataLoaded | CallGetCachedData => cachedData
  end.

(** The module variable after a sequence of calls, each against whatever
    the host serves at that moment. *)
Definition cache_after_calls (calls : list (Server * LoaderCall))
  (cachedData : option TransitData) : option TransitData :=
  fold_left (fun c sc => cache_after (fst sc) (snd sc) c) calls cachedData.

End DataLoader.

(* ===================================================================== *)
(** ** context/TransitContext.tsx *)
(* ===================================================================== *)

Module TransitContext.
Import Types.

Record TransitState := {
  data : option TransitData;
  loading : bool;
  error : option string;
  filters : FilterState;
  selection : SelectionState;
  sidebarOpen : bool;
  visibleRoutes : gset string
}.

Inductive TransitAction :=
| SET_DATA (payload : TransitData)
| SET_LOADING (payload : bool)
| SET_ERROR (payload : string)
| TOGGLE_FILTER (payload : TransitType)
| SET_FILTERS (payload : FilterState)
| SELECT_STOP (payload : option string)
| SELECT_ROUTE (payload : option string)
| SET_HIGHLIGHTED_ROUTES (payload : list string)
| TOGGLE_SIDEBAR
| OPEN_SIDEBAR
| TOGGLE_ROUTE_VISIBILITY (payload : string)
| SET_VISIBLE_ROUTES (payload : gset string)
| CLEAR_SELECTION.

Definition initialState : TransitState := {|
  data := None;
  loading := true;
  error := None;
  filters := {| f_metro := true; f_rail := true; f_bus := true |};
  selection := {| selectedStop := None; selectedRoute := None;
                  highlightedRoutes := [] |};
  sidebarOpen := true;
  visibleRoutes := ∅
|}.

(** [filters[type]] *)
Definition filter_get (f : FilterState) (t : TransitType) : bool :=
  match t with
  | metro => f_metro f
  | rail => f_rail f
  | bus => f_bus f
  end.

(** [{ ...filters, [type]: v }] *)
Definition filter_set (f : FilterState) (t : TransitType) (v : bool) : FilterState :=
  match t with
  | metro => {| f_metro := v; f_rail := f_rail f; f_bus := f_bus f |}
  | rail => {| f_metro := f_metro f; f_rail := v; f_bus := f_bus f |}
  | bus => {| f_metro := f_metro f; f_rail := f_rail f; f_bus := v |}
  end.

(** [action.payload && state.data ? state.data.stopToRoutes[action.payload] || [] : []]
    where it is an array: the own entry of [stopToRoutes], or [[]].  For
    a payload that only [Object.prototype] has a member for, the
    expression is that member; see [transitReducer_throws]. *)
Definition stopRoutes_of (state : TransitState) (payload : option string)
  : list string :=
  match payload, data state with
  | Some id, Some d =>
      if Js.truthy id then default [] (stopToRoutes d !! id) else []
  | _, _ => []
  end.

(** The state the reducer returns.  The [default: return state] branch is
    for action types outside [TransitAction] and has no counterpart
    here.  In one case the reducer throws and returns no state; see
    [transitReducer_throws] and [dispatch] below. *)
Definition transitReducer (state : TransitState) (action : TransitAction)
  : TransitState :=
  match action with
  | SET_DATA payload =>
      {| data := Some payload; loading := false; error := None;
         filters := filters state; selection := selection state;
         sidebarOpen := sidebarOpen state;
         visibleRoutes := visibleRoutes state |}
  | SET_LOADING payload =>
      {| data := data state; loading := payload; error := error state;
         filters := filters state; selection := selection state;
         sidebarOpen := sidebarOpen state;
         visibleRoutes := visibleRoutes state |}
  | SET_ERROR payload =>
      {| data := data state; loading := false; error := Some payload;
         filters := filters state; selection := selection state;
         sidebarOpen := sidebarOpen state;
         visibleRoutes := visibleRoutes state |}
  | TOGGLE_FILTER payload =>
      {| data := data state; loading := loading state; error := error state;
         filters := filter_set (filters state) payload
                      (negb (filter_get (filters state) payload));
         selection := selection state;
         sidebarOpen := sidebarOpen state;
         visibleRoutes := visibleRoutes state |}
  | SET_FILTERS payload =>
      {| data := data state; loading := loading state; error := error state;
         filters := payload; selection := selection state;
         sidebarOpen := sidebarOpen state;
         visibleRoutes := visibleRoutes state |}
  | SELECT_STOP payload =>
      let stopRoutes := stopRoutes_of state payload in
      {| data := data state; loading := loading state; error := error state;
         filters := filters state;
         selection := {| selectedStop := payload;
                         selectedRoute := None;
                         highlightedRoutes := stopRoutes |};
         sidebarOpen := sidebarOpen state;
         visibleRoutes := if Js.truthy_opt payload
                          then list_to_set stopRoutes else ∅ |}
  | SELECT_ROUTE payload =>
      {| data := data state; loading := loading state; error := error state;
         filters := filters state;
         selection := {| selectedStop := None;
                         selectedRoute := payload;
                         highlightedRoutes :=
                           match payload with
                           | Some r => if Js.truthy r then [r] else []
                           | None => []
                           end |};
         sidebarOpen := sidebarOpen state;
         visibleRoutes := match payload with
                          | Some r => if Js.truthy r then {[ r ]} else ∅
                          | None => ∅
                          end |}
  | SET_HIGHLIGHTED_ROUTES payload =>
      {| data := data state; loading := loading state; error := error state;
         filters := filters state;
         selection := {| selectedStop := selectedStop (selection state);
                         selectedRoute := selectedRoute (selection state);
                         highlightedRoutes := payload |};
         sidebarOpen := sidebarOpen state;
         visibleRoutes := visibleRoutes state |}
  | TOGGLE_SIDEBAR =>
      {| data := data state; loading := loading state; error := error state;
         filters := filters state; selection := selection state;
         sidebarOpen := negb (sidebarOpen state);
         visibleRoutes := visibleRoutes state |}
  | OPEN_SIDEBAR =>
      {| data := data state; loading := loading state; error := error state;
         filters := filters state; selection := selection state;
         sidebarOpen := true;
         visibleRoutes := visibleRoutes state |}
  | TOGGLE_ROUTE_VISIBILITY payload =>
      let newVisible :=
        if bool_decide (payload ∈ visibleRoutes state)
        then visibleRoutes state ∖ {[ payload ]}
        else {[ payload ]} ∪ visibleRoutes state in
      {| data := data state; loading := loading state; error := error state;
         filters := filters state; selection := selection state;
         sidebarOpen := sidebarOpen state;
         visibleRoutes := newVisible |}
  | SET_VISIBLE_ROUTES payload =>
      {| data := data state; loading := loading state; error := error state;
         filters := filters state; selection := selection state;
         sidebarOpen := sidebarOpen state;
         visibleRoutes := payload |}
  | CLEAR_SELECTION =>
      {| data := data state; loading := loading state; error := error state;
         filters := filters state;
         selection := {| selectedStop := None; selectedRoute := None;
                         highlightedRoutes := [] |};
         sidebarOpen := sidebarOpen state;
         visibleRoutes := ∅ |}
  end.

(** The reducer throws, instead of returning a state, on SELECT_STOP with
    a non-empty id and loaded data when [stopToRoutes[id] || []] is not
    an array: [new Set(stopRoutes)] is then a TypeError. *)
Definition transitReducer_throws (state : TransitState) (action : TransitAction)
  : bool :=
  match action, data state with
  | SELECT_STOP (Some id), Some d =>
      Js.truthy id && Js.not_an_array (stopToRoutes d) id
  | _, _ => false
  end.

(** One dispatch: the next state, or [None] where the reducer throws. *)
Definition dispatch (state : TransitState) (action : TransitAction)
  : option TransitState :=
  if transitReducer_throws state action then None
  else Some (transitReducer state action).

(** The state [useReducer] holds after the dispatched actions, oldest first. *)
Definition dispatch_all (actions : list TransitAction) : TransitState :=
  fold_left transitReducer actions initialState.

(** A state is reachable when some sequence of dispatches produces it. *)
Inductive reachable : TransitState -> Prop :=
| reach_init : reachable initialState
| reach_step state action :
    reachable state -> reachable (transitReducer state action).

Definition isRouteVisible (state : TransitState) (routeId : string) : bool :=
  if Nat.eqb (size (visibleRoutes state)) 0 then true
  else bool_decide (routeId ∈ visibleRoutes state).

(** The truthiness of [filters[type]] for a run-time string key: the
    flag of one of the three types, truthy for any other key that the
    filters object inherits a member for, falsy ([undefined]) for the
    rest. *)
Definition filter_get_str (f : FilterState) (key : string) : bool :=
  if String.eqb key "metro" then f_metro f
  else if String.eqb key "rail" then f_rail f
  else if String.eqb key "bus" then f_bus f
  else Js.inherited key.

(** [routeToStops[routeId] || []] where it is an array: the own entry of
    [routeToStops], or [[]].  For a route id that only [Object.prototype]
    has a member for, the expression is that member; see
    [getFilteredStops_throws]. *)
Definition routeStops_of (d : TransitData) (routeId : string) : list RouteStopInfo :=
  default [] (routeToStops d !! routeId).

(** The set [relevantStopIds]: the selected stop, then the stops of every
    visible route added one by one. *)
Definition relevantStopIds (d : TransitData) (visible : gset string)
  (selectedStop : string) : gset string :=
  foldl (fun acc routeId =>
           foldl (fun acc s => {[ rs_stop_id s ]} ∪ acc) acc (routeStops_of d routeId))
        {[ selectedStop ]} (elements visible).

(** The list [getFilteredStops] returns; see [getFilteredStops_throws]
    for where it throws instead. *)
Definition getFilteredStops (state : TransitState) : list StopFeature :=
  match data state with
  | None => []
  | Some d =>
      if Js.truthy_opt (selectedRoute (selection state)) then
        let routeStops :=
          routeStops_of d (default "" (selectedRoute (selection state))) in
        let routeStopIds : gset string := list_to_set (map rs_stop_id routeStops) in
        filter (fun stop =>
                  filter_get (filters state) (transit_type (stop_properties stop)) = true
                  ∧ stop_id (stop_properties stop) ∈ routeStopIds)
               (features (td_stops d))
      else if Js.truthy_opt (selectedStop (selection state))
              && (0 <? size (visibleRoutes state))%nat then
        let relevant :=
          relevantStopIds d (visibleRoutes state)
            (default "" (selectedStop (selection state))) in
        filter (fun stop =>
                  filter_get (filters state) (transit_type (stop_properties stop)) = true
                  ∧ stop_id (stop_properties stop) ∈ relevant)
               (features (td_stops d))
      else
        filter (fun stop =>
                  filter_get (filters state) (transit_type (stop_properties stop)) = true)
               (features (td_stops d))
  end.

(** [getFilteredStops] throws, instead of returning, when a route is
    selected whose [routeToStops] lookup is not an array
    ([routeStops.map] is then a TypeError), and, with a stop selected and
    [visibleRoutes] not empty, when the lookup of some visible route is
    not an array ([routeStops.forEach]). *)
Definition getFilteredStops_throws (state : TransitState) : bool :=
  match data state with
  | None => false
  | Some d =>
      if Js.truthy_opt (selectedRoute (selection state)) then
        Js.not_an_array (routeToStops d)
          (default "" (selectedRoute (selection state)))
      else if Js.truthy_opt (selectedStop (selection state))
              && (0 <? size (visibleRoutes state))%nat then
        existsb (Js.not_an_array (routeToStops d))
                (elements (visibleRoutes state))
      else false
  end.

(** One call of [getFilteredStops]: the list it returns, or [None] where
    it throws. *)
Definition getFilteredStops_call (state : TransitState)
  : option (list StopFeature) :=
  if getFilteredStops_throws state then None
  else Some (getFilteredStops state).

Definition getFilteredRoutes (state : TransitState) : list RouteFeature :=
  match data state with
  | None => []
  | Some d =>
      filter (fun route =>
                filter_get_str (filters state) (type_name (properties route)) = true
                ∧ ((0 <? size (visibleRoutes state))%nat = true →
                   route_id (properties route) ∈ visibleRoutes state))
             (features (td_routes d))
  end.

Definition getSelectedStopData (state : TransitState) : option StopFeature :=
  match data state, selectedStop (selection state) with
  | Some d, Some sel =>
      if Js.truthy sel then
        List.find (fun stop => String.eqb (stop_id (stop_properties stop)) sel)
                  (features (td_stops d))
      else None
  | _, _ => None
  end.

Definition getSelectedRouteData (state : TransitState) : option RouteFeature :=
  match data state, selectedRoute (selection state) with
  | Some d, Some sel =>
      if Js.truthy sel then
        List.find (fun route => String.eqb (route_id (properties route)) sel)
                  (features (td_routes d))
      else None
  | _, _ => None
  end.

(** The provider's load effect: the action it dispatches when
    [loadTransitData] settles, and the loader's cache afterwards; the
    error message is
    [err instanceof Error ? err.message : 'Failed to load data']. *)
Definition load_effect (srv : DataLoader.Server) (cachedData : option TransitData)
  : TransitAction * option TransitData :=
  match DataLoader.loadTransitData srv cachedData with
  | (inr d, cache) => (SET_DATA d, cache)
  | (inl (DataLoader.ErrorObject message), cache) => (SET_ERROR message, cache)
  | (inl DataLoader.OtherValue, cache) => (SET_ERROR "Failed to load data", cache)
  end.

End TransitContext.

(* ===================================================================== *)
(** ** components/Map/RouteLayer.tsx *)
(* ===================================================================== *)

Module RouteLayer.
Import Types.

Record PathOptions := {
  po_color : string;
  po_weight : Z;
  po_opacity : number;
  po_dashArray : option string
}.

(** The [<Polyline>] element: its positions, its path options, the route
    id its click handler passes to [onClick], and the icon and route name
    of its tooltip. *)
Record PolylineElement := {
  positions : list (number * number);
  pathOptions : PathOptions;
  click_route_id : string;
  tooltip_icon : Js.Property string;
  tooltip_name : string
}.

(** [None] is the [null] that React renders as nothing. *)
Definition RoutePolyline (route : RouteFeature) (isHighlighted : bool)
  : option PolylineElement :=
  match geometry route with
  | None => None
  | Some g =>
      match coordinates g with
      | None => None
      | Some coords =>
          if (Z.of_nat (length coords) <? 2)%Z then None
          else
            let positions := map (fun '(lng, lat) => (lat, lng)) coords in
            let transitType := type_name (properties route) in
            let baseOptions :=
              Utils.getRouteLineOptions transitType
                (Some (color (properties route))) in
            Some {| positions := positions;
                    pathOptions :=
                      {| po_color := line_color baseOptions;
                         po_weight := if isHighlighted
                                      then line_weight baseOptions + 2
                                      else line_weight baseOptions;
                         po_opacity := if isHighlighted then 1%Q
                                       else line_opacity baseOptions;
                         po_dashArray := dashArray baseOptions |};
                    click_route_id := route_id (properties route);
                    tooltip_icon := Utils.TRANSIT_ICONS transitType;
                    tooltip_name := name (properties route) |}
      end
  end.

(** The comparator of [sortedRoutes]: a highlighted route after a route
    that is not. *)
Definition highlight_cmp (highlighted : gset string) (a b : RouteFeature) : Z :=
  let aHighlighted := bool_decide (route_id (properties a) ∈ highlighted) in
  let bHighlighted := bool_decide (route_id (properties b) ∈ highlighted) in
  if aHighlighted && negb bHighlighted then 1
  else if negb aHighlighted && bHighlighted then -1
  else 0.

Definition sortedRoutes (state : TransitContext.TransitState) : list RouteFeature :=
  let filteredRoutes := TransitContext.getFilteredRoutes state in
  let highlighted : gset string :=
    list_to_set (highlightedRoutes (TransitContext.selection state)) in
  Js.sort (highlight_cmp highlighted) filteredRoutes.

(** The [RouteLayer] component: one [RoutePolyline] per sorted route, in
    drawing order. *)
Definition RouteLayer (state : TransitContext.TransitState)
  : list (option PolylineElement) :=
  map (fun route =>
         RoutePolyline route
           (bool_decide (route_id (properties route)
                         ∈ highlightedRoutes (TransitContext.selection state))))
      (sortedRoutes state).

End RouteLayer.

(* ===================================================================== *)
(** ** components/Map/StopLayer.tsx *)
(* ===================================================================== *)

Module StopLayer.
Import Types.

(** The stops the layer keeps markers for: filtered by the selection, not
    by transit type. *)
Definition allStops (state : TransitContext.TransitState) : list StopFeature :=
  match TransitContext.data state with
  | None => []
  | Some d =>
      if Js.truthy_opt (selectedRoute (TransitContext.selection state)) then
        let routeStops :=
          TransitContext.routeStops_of d
            (default "" (selectedRoute (TransitContext.selection state))) in
        let routeStopIds : gset string := list_to_set (map rs_stop_id routeStops) in
        filter (fun stop => stop_id (stop_properties stop) ∈ routeStopIds)
               (features (td_stops d))
      else if Js.truthy_opt (selectedStop (TransitContext.selection state))
              && (0 <? size (TransitContext.visibleRoutes state))%nat then
        let relevant :=
          TransitContext.relevantStopIds d (TransitContext.visibleRoutes state)
            (default "" (selectedStop (TransitContext.selection state))) in
        filter (fun stop => stop_id (stop_properties stop) ∈ relevant)
               (features (td_stops d))
      else features (td_stops d)
  end.

(** [metroStops], [railStops] and [busStops]: the stops of [allStops]
    pushed, in order, on the array of their type. *)
Definition stops_of_type (t : TransitType) (stops : list StopFeature)
  : list StopFeature :=
  filter (fun stop => transit_type (stop_properties stop) = t) stops.

(** [routeColorMap]: a later route with the same id replaces the colour. *)
Definition routeColorMap (state : TransitContext.TransitState) : gmap string string :=
  match TransitContext.data state with
  | None => ∅
  | Some d =>
      foldl (fun m route =>
               <[ route_id (properties route) := color (properties route) ]> m)
            ∅ (features (td_routes d))
  end.

Definition getMetroStopColor (state : TransitContext.TransitState)
  (stop : StopFeature) : option string :=
  match routes (stop_properties stop) with
  | first :: _ => routeColorMap state !! first
  | [] => None
  end.

(** The properties of a [L.divIcon] that the two icon builders set from
    their arguments; the [html] text renders the same values. *)
Record DivIcon := {
  className : string;
  icon_color : string;
  icon_borderColor : string;
  icon_borderWidth : Z;
  icon_actualSize : Z;
  icon_opacity : number;
  iconAnchor : number * number;
  popupAnchor : number * number
}.

Definition createSquareIcon (color : string) (size : Z) (isSelected : bool) : DivIcon :=
  let actualSize := if isSelected then size + 4 else size in
  {| className := "metro-square-marker";
     icon_color := color;
     icon_borderColor := if isSelected then "#000" else color;
     icon_borderWidth := if isSelected then 3 else 2;
     icon_actualSize := actualSize;
     icon_opacity := if isSelected then 1%Q else (8 # 10)%Q;
     iconAnchor := ((inject_Z actualSize / 2)%Q, (inject_Z actualSize / 2)%Q);
     popupAnchor := (0%Q, (- (inject_Z actualSize / 2))%Q) |}.

Definition createTriangleIcon (color : string) (size : Z) (isSelected : bool) : DivIcon :=
  let actualSize := if isSelected then size + 4 else size in
  {| className := "mmts-triangle-marker";
     icon_color := color;
     icon_borderColor := if isSelected then "#000" else color;
     icon_borderWidth := if isSelected then 2 else 1;
     icon_actualSize := actualSize;
     icon_opacity := if isSelected then 1%Q else (8 # 10)%Q;
     iconAnchor := ((inject_Z actualSize / 2)%Q, inject_Z actualSize);
     popupAnchor := (0%Q, (- inject_Z actualSize)%Q) |}.

(** What a marker draws. *)
Inductive MarkerShape :=
| IconMarker (icon : DivIcon)
| CircleMarker (radius : Z) (color fillColor : string)
    (fillOpacity : number) (weight : Z).

(** The popup: icon and label of the type, stop name, service hours, and
    the route count with its plural ending. *)
Record PopupContent := {
  popup_icon : option string;
  popup_label : string;
  popup_name : string;
  popup_hours : string;
  popup_route_count : Z;
  popup_plural : string
}.

(** The element a [StopMarker] renders, with the stop id its click handler
    passes on. *)
Record StopMarkerElement := {
  marker_position : number * number;
  marker_shape : MarkerShape;
  marker_click_stop_id : string;
  marker_popup : PopupContent
}.

(** [None] is the [null] of a marker that is not visible; [routeColor] is
    [None] when the prop is absent or [undefined]. *)
Definition StopMarker (stop : StopFeature) (isSelected isVisible : bool)
  (routeColor : option string) : option StopMarkerElement :=
  let props := stop_properties stop in
  let '(lng, lat) := point_coordinates (stop_geometry stop) in
  let options := Utils.getStopMarkerOptions (transit_type props) in
  let markerColor :=
    if Js.truthy_opt routeColor then default "" routeColor
    else Utils.marker_color options in
  if negb isVisible then None
  else
    let popup :=
      {| popup_icon := Some (match transit_type props with
                             | metro => "metro"
                             | rail => "train"
                             | bus => "airport_shuttle"
                             end);
         popup_label := Utils.TRANSIT_LABELS (transit_type props);
         popup_name := stop_name props;
         popup_hours := Utils.formatTimeRange (first_time props) (last_time props);
         popup_route_count := route_count props;
         popup_plural := if (route_count props =? 1)%Z then "" else "s" |} in
    let shape :=
      match transit_type props with
      | metro => IconMarker (createSquareIcon markerColor 10 isSelected)
      | rail => IconMarker (createTriangleIcon markerColor 12 isSelected)
      | bus =>
          CircleMarker
            (if isSelected then Utils.marker_radius options + 3
             else Utils.marker_radius options)
            (if isSelected then "#000" else markerColor)
            markerColor
            (if isSelected then 1%Q else Utils.marker_fillOpacity options)
            (if isSelected then 3 else Utils.marker_weight options)
      end in
    Some {| marker_position := (lat, lng);
            marker_shape := shape;
            marker_click_stop_id := stop_id props;
            marker_popup := popup |}.

(** [state.selection.selectedStop === stop.properties.stop_id] *)
Definition isSelectedStop (state : TransitContext.TransitState)
  (stop : StopFeature) : bool :=
  match selectedStop (TransitContext.selection state) with
  | Some sel => String.eqb sel (stop_id (stop_properties stop))
  | None => false
  end.

(** The markers of one type, each paired with its stop. *)
Definition markers_of_type (state : TransitContext.TransitState) (t : TransitType)
  : list (StopFeature * option StopMarkerElement) :=
  map (fun stop =>
         (stop,
          StopMarker stop (isSelectedStop state stop)
            (TransitContext.filter_get (TransitContext.filters state) t)
            (match t with
             | metro => getMetroStopColor state stop
             | _ => None
             end)))
      (stops_of_type t (allStops state)).

(** The [StopLayer] component: metro markers, then rail, then bus. *)
Definition StopLayer (state : TransitContext.TransitState)
  : list (StopFeature * option StopMarkerElement) :=
  markers_of_type state metro ++ markers_of_type state rail
  ++ markers_of_type state bus.

(** The stops that have a marker on the map. *)
Definition drawn_stops (layer : list (StopFeature * option StopMarkerElement))
  : list StopFeature :=
  omap (fun p => match snd p with
                 | Some _ => Some (fst p)
                 | None => None
                 end) layer.

End StopLayer.

(* ===================================================================== *)
(** ** components/Sidebar/index.tsx and app/page.tsx *)
(* ===================================================================== *)

Module Sidebar.
Import Types.

(** What the sidebar shows of the selection: its CSS state, the heading
    of the selection block, the two info panels with the id they get, and
    whether the route list and the statistics footer are there.  The
    footer's numbers are read from the metadata and are not part of it. *)
Record SidebarView := {
  collapsed : bool;
  has_selection : bool;
  selection_heading : option string;
  stop_info : option string;
  route_info : option string;
  route_list : bool;
  stats_footer : bool
}.

Definition Sidebar (state : TransitContext.TransitState) : SidebarView :=
  let selectedStop := selectedStop (TransitContext.selection state) in
  let selectedRoute := selectedRoute (TransitContext.selection state) in
  let hasSelection := Js.truthy_opt selectedStop || Js.truthy_opt selectedRoute in
  {| collapsed := negb (TransitContext.sidebarOpen state);
     has_selection := hasSelection;
     selection_heading :=
       if hasSelection
       then Some (if Js.truthy_opt selectedStop then "Selected Stop"
                  else "Selected Route")
       else None;
     stop_info :=
       if hasSelection && Js.truthy_opt selectedStop then selectedStop else None;
     route_info :=
       if hasSelection && Js.truthy_opt selectedRoute then selectedRoute else None;
     route_list := negb hasSelection;
     stats_footer := match TransitContext.data state with
                     | Some _ => true
                     | None => false
                     end |}.

End Sidebar.

Module Page.
Import Types.

(** The three screens of [HomePage]; the main screen carries whether the
    clear pill and the open-sidebar button are shown. *)
Inductive PageView :=
| LoadingScreen
| ErrorScreen (message : string)
| MainScreen (clearPill openSidebarButton : bool).

Definition HomePage (state : TransitContext.TransitState) : PageView :=
  if TransitContext.loading state then LoadingScreen
  else if Js.truthy_opt (TransitContext.error state)
  then ErrorScreen (default "" (TransitContext.error state))
  else MainScreen
         (Js.truthy_opt (selectedStop (TransitContext.selection state))
          || Js.truthy_opt (selectedRoute (TransitContext.selection state)))
         (negb (TransitContext.sidebarOpen state)).

End Page.

(* ===================================================================== *)
(** ** components/Sidebar/RouteList.tsx *)
(* ===================================================================== *)

Module RouteList.
Import Types.

(** The routes of the enabled types, whatever the route filter. *)
Definition allRoutesForTypes (state : TransitContext.TransitState)
  : list RouteFeature :=
  match TransitContext.data state with
  | None => []
  | Some d =>
      filter (fun route =>
                TransitContext.filter_get_str (TransitContext.filters state)
                  (type_name (properties route)) = true)
             (features (td_routes d))
  end.

Definition hasRouteFilter (state : TransitContext.TransitState) : bool :=
  (0 <? size (TransitContext.visibleRoutes state))%nat.

(** How [RouteGroup] draws the row of one route: the [selected] and
    [opacity-40] classes, the check box, and the title of the toggle. *)
Record RouteRow := {
  row_selected : bool;
  row_dimmed : bool;
  row_checked : bool;
  row_title : string
}.

Definition route_row (state : TransitContext.TransitState) (route : RouteFeature)
  : RouteRow :=
  let routeId := route_id (properties route) in
  let isVisible := TransitContext.isRouteVisible state routeId in
  let isSelected :=
    match selectedRoute (TransitContext.selection state) with
    | Some sel => String.eqb sel routeId
    | None => false
    end in
  {| row_selected := isSelected;
     row_dimmed := negb isVisible && hasRouteFilter state;
     row_checked := isVisible || negb (hasRouteFilter state);
     row_title := if isVisible then "Hide route" else "Show route" |}.

End RouteList.

(* ===================================================================== *)
(** ** components/UI/SearchBox.tsx *)
(* ===================================================================== *)

Module SearchBox.
Import Types.

Inductive SearchCategory := CatAll | CatStops | CatRoutes.

Inductive ResultType := ResultStop | ResultRoute.

Record SearchResult := {
  result_type : ResultType;
  result_id : string;
  result_name : string;
  result_transitType : string;
  result_subtitle : string
}.

(** [None] is ['all']. *)
Definition activeTransitFilter (f : FilterState) : option TransitType :=
  let enabledCount :=
    length (List.filter (fun b : bool => b) [f_metro f; f_rail f; f_bus f]) in
  if (enabledCount =? 0)%nat || (enabledCount =? 3)%nat then None
  else if f_metro f && negb (f_rail f) && negb (f_bus f) then Some metro
  else if f_rail f && negb (f_metro f) && negb (f_bus f) then Some rail
  else if f_bus f && negb (f_metro f) && negb (f_rail f) then Some bus
  else None.

Definition stop_result (stop : StopFeature) : SearchResult :=
  {| result_type := ResultStop;
     result_id := stop_id (stop_properties stop);
     result_name := stop_name (stop_properties stop);
     result_transitType := TransitType_str (transit_type (stop_properties stop));
     result_subtitle :=
       Js.number_toString (route_count (stop_properties stop)) +:+ " routes" |}.

Definition route_result (route : RouteFeature) : SearchResult :=
  {| result_type := ResultRoute;
     result_id := route_id (properties route);
     result_name := name (properties route);
     result_transitType := type_name (properties route);
     result_subtitle :=
       Js.number_toString (stop_count (properties route)) +:+ " stops" |}.

(** The loop over the stop features: [break] once [maxStops] results were
    pushed, [continue] past a stop of another type. *)
Fixpoint search_stops (active : option TransitType) (hasQuery : bool)
  (lowerQuery : string) (maxStops stopCount : nat) (stops : list StopFeature)
  : list SearchResult :=
  match stops with
  | [] => []
  | stop :: rest =>
      if (maxStops <=? stopCount)%nat then []
      else if match active with
              | Some t => negb (bool_decide (transit_type (stop_properties stop) = t))
              | None => false
              end
      then search_stops active hasQuery lowerQuery maxStops stopCount rest
      else if negb hasQuery
              || Utils.matchesSearch (stop_name (stop_properties stop)) lowerQuery
      then stop_result stop
           :: search_stops active hasQuery lowerQuery maxStops (S stopCount) rest
      else search_stops active hasQuery lowerQuery maxStops stopCount rest
  end.

(** The loop over the route features. *)
Fixpoint search_routes (active : option TransitType) (hasQuery : bool)
  (lowerQuery : string) (maxRoutes routeCount : nat) (routes : list RouteFeature)
  : list SearchResult :=
  match routes with
  | [] => []
  | route :: rest =>
      if (maxRoutes <=? routeCount)%nat then []
      else if match active with
              | Some t => negb (String.eqb (type_name (properties route))
                                           (TransitType_str t))
              | None => false
              end
      then search_routes active hasQuery lowerQuery maxRoutes routeCount rest
      else if negb hasQuery
              || Utils.matchesSearch (name (properties route)) lowerQuery
              || Utils.matchesSearch (short_name (properties route)) lowerQuery
              || Utils.matchesSearch (long_name (properties route)) lowerQuery
      then route_result route
           :: search_routes active hasQuery lowerQuery maxRoutes (S routeCount) rest
      else search_routes active hasQuery lowerQuery maxRoutes routeCount rest
  end.

Definition results (state : TransitContext.TransitState) (query : string)
  (category : SearchCategory) : list SearchResult :=
  match TransitContext.data state with
  | None => []
  | Some d =>
      let active := activeTransitFilter (TransitContext.filters state) in
      let lowerQuery := Js.trim (Js.toLowerCase query) in
      let hasQuery := (2 <=? String.length lowerQuery)%nat in
      let stopResults :=
        match category with
        | CatAll => search_stops active hasQuery lowerQuery 8 0 (features (td_stops d))
        | CatStops => search_stops active hasQuery lowerQuery 20 0 (features (td_stops d))
        | CatRoutes => []
        end in
      let routeResults :=
        match category with
        | CatAll => search_routes active hasQuery lowerQuery 8 0 (features (td_routes d))
        | CatRoutes => search_routes active hasQuery lowerQuery 20 0 (features (td_routes d))
        | CatStops => []
        end in
      (stopResults ++ routeResults)%list
  end.

(** The local state of the box. *)
Record BoxState := {
  query : string;
  isOpen : bool;
  selectedIndex : Z
}.

Inductive Key := ArrowDown | ArrowUp | Enter | Escape | OtherKey.

(** [handleSelect]: the action dispatched to the context and the box
    afterwards. *)
Definition handleSelect (result : SearchResult)
  : BoxState * option TransitContext.TransitAction :=
  ({| query := ""; isOpen := false; selectedIndex := -1 |},
   Some (match result_type result with
         | ResultStop => TransitContext.SELECT_STOP (Some (result_id result))
         | ResultRoute => TransitContext.SELECT_ROUTE (Some (result_id result))
         end)).

(** [handleKeyDown] against the results of the current render: the box
    afterwards and the action dispatched, if any. *)
Definition handleKeyDown (results : list SearchResult) (box : BoxState) (key : Key)
  : BoxState * option TransitContext.TransitAction :=
  let len := Z.of_nat (length results) in
  if negb (isOpen box) || (len =? 0) then (box, None)
  else
    match key with
    | ArrowDown =>
        ({| query := query box; isOpen := isOpen box;
            selectedIndex := if selectedIndex box <? len - 1
                             then selectedIndex box + 1
                             else selectedIndex box |}, None)
    | ArrowUp =>
        ({| query := query box; isOpen := isOpen box;
            selectedIndex := if 0 <? selectedIndex box
                             then selectedIndex box - 1
                             else selectedIndex box |}, None)
    | Enter =>
        if (0 <=? selectedIndex box) && (selectedIndex box <? len) then
          match results !! Z.to_nat (selectedIndex box) with
          | Some result => handleSelect result
          | None => (box, None)
          end
        else (box, None)
    | Escape =>
        ({| query := query box; isOpen := false; selectedIndex := -1 |}, None)
    | OtherKey => (box, None)
    end.

(** The box after a sequence of keys, while the results stay the same. *)
Definition press_keys (results : list SearchResult) (box : BoxState)
  (keys : list Key) : BoxState :=
  fold_left (fun b k => fst (handleKeyDown results b k)) keys box.

(** [if (cond) toggleFilter(type)] *)
Definition toggle_if (cond : bool) (t : TransitType)
  : list TransitContext.TransitAction :=
  if cond then [TransitContext.TOGGLE_FILTER t] else [].

(** The click handler of a transit-type button, [None] being the 'all'
    button: the TOGGLE_FILTER actions it dispatches, in order, all decided
    on the filters of the current render. *)
Definition type_button_click (f : FilterState) (type : option TransitType)
  : list TransitContext.TransitAction :=
  let enable_all :=
    (toggle_if (negb (f_metro f)) metro ++ toggle_if (negb (f_rail f)) rail
     ++ toggle_if (negb (f_bus f)) bus)%list in
  match type with
  | None => enable_all
  | Some t =>
      let isCurrentlySelected :=
        bool_decide (activeTransitFilter f = Some t) in
      if isCurrentlySelected then enable_all
      else
        (toggle_if (f_metro f && negb (bool_decide (t = metro))) metro
         ++ toggle_if (f_rail f && negb (bool_decide (t = rail))) rail
         ++ toggle_if (f_bus f && negb (bool_decide (t = bus))) bus
         ++ toggle_if (negb (TransitContext.filter_get f t)) t)%list
  end.

End SearchBox.

(* ===================================================================== *)
(** ** The preprocessing pipeline (scripts/, Python): timetables

    The six data files that [loadTransitData] fetches are written by the
    Python preprocessor, whose scripts are not among the sources embedded
    above.  The Timetable Builder (timetable_processor.py) below follows
    section 4.6 of the specification (and the pseudocode of
    IMPLEMENTATION_PLAN.md where it gives some), restricted to the
    identifiers, departure times and calendars that the verified
    property relates. *)
(* ===================================================================== *)

Module Preprocessor.
Import Types.

(** *** Tables *)

(** Modelled from the spec: a GTFS time [H:MM:SS] as the loader parsed it;
    [gt_hours] may exceed 23 for service past midnight. *)
Record GtfsTime := {
  gt_hours : N;
  gt_minutes : N;
  gt_seconds : N
}.


(** Modelled from the spec: one row of routes.txt. *)
Record RouteRow := {
  row_route_id : string;
  row_route_type : Z
}.





(** *** Timetable Builder (section 4.6) *)

(** Modelled from the spec: a decimal digit as the character printed. *)
Definition digit_char (d : N) : ascii :=
  ascii_of_N (48 + d).

(** Modelled from the spec: Python's [f"{n:02d}"], the decimal digits of
    [n] padded with a zero to two places. *)
Definition pad2 (n : N) : string :=
  if (n <? 10)%N then String "0" (String (digit_char n) EmptyString)
  else pretty n.

(** Modelled from the spec: [normalize_time] of section 4.6 (in
    IMPLEMENTATION_PLAN.md: [h = h % 24] and [f"{h:02d}:{m:02d}"]). *)
Definition normalize_time (g : GtfsTime) : string :=
  pad2 (gt_hours g mod 24) +:+ ":" +:+ pad2 (gt_minutes g).

(** Modelled from the spec: the value of one decimal digit character. *)
Definition digit_value (c : ascii) : option N :=
  let n := N_of_ascii c in
  if ((48 <=? n) && (n <=? 57))%N then Some (n - 48)%N else None.

(** Modelled from the spec: [int(s)] on a string of decimal digits. *)
Fixpoint parse_digits (acc : N) (s : string) : option N :=
  match s with
  | EmptyString => Some acc
  | String c s' =>
      match digit_value c with
      | Some d => parse_digits (10 * acc + d) s'
      | None => None
      end
  end.

(** Modelled from the spec: [int(s)], undefined on the empty string. *)
Definition parse_int (s : string) : option N :=
  match s with
  | EmptyString => None
  | _ => parse_digits 0 s
  end.

(** Modelled from the spec: [h, m, s = map(int, gtfs_time.split(':'))],
    the reading of a time in the validated format [H+:MM:SS]. *)
Definition parse_gtfs_time (s : string) : option GtfsTime :=
  match Js.split ":" s with
  | [h; m; sec] =>
      match parse_int h, parse_int m, parse_int sec with
      | Some h', Some m', Some s' =>
          Some {| gt_hours := h'; gt_minutes := m'; gt_seconds := s' |}
      | _, _, _ => None
      end
  | _ => None
  end.

(** Modelled from the spec: the original, pre-modulo value of a time, in
    seconds since the start of the service day. *)
Definition original_value (g : GtfsTime) : N :=
  (gt_hours g * 3600 + gt_minutes g * 60 + gt_seconds g)%N.





(** Modelled from the spec: a collected departure, the normalized label
    together with the time it was normalized from. *)
Definition labelled (g : GtfsTime) : GtfsTime * string :=
  (g, normalize_time g).

(** Modelled from the spec: deduplication of exact-time collisions: an
    entry whose normalized time was already collected is dropped. *)
Fixpoint dedup_entries (seen : list string) (es : list (GtfsTime * string))
  : list (GtfsTime * string) :=
  match es with
  | [] => []
  | e :: rest =>
      if bool_decide (snd e ∈ seen) then dedup_entries seen rest
      else e :: dedup_entries (snd e :: seen) rest
  end.

(** Modelled from the spec: the order of a bucket, by original pre-modulo
    value. *)
Definition original_le (x y : GtfsTime * string) : Prop :=
  (original_value (fst x) <= original_value (fst y))%N.

#[global] Instance original_le_dec x y : Decision (original_le x y).
Proof. unfold original_le. apply _. Defined.

(** Modelled from the spec: the entries of one bucket: normalize,
    deduplicate exact-time collisions, sort by original pre-modulo value. *)
Definition bucket_entries (raws : list GtfsTime) : list (GtfsTime * string) :=
  merge_sort original_le (dedup_entries [] (map labelled raws)).

(** Modelled from the spec: one timetable array of ["HH:MM"] labels. *)
Definition build_bucket (raws : list GtfsTime) : list string :=
  map snd (bucket_entries raws).



End Preprocessor.

(* ===================================================================== *)
(** ** Properties, as the specification words them *)
(* ===================================================================== *)

Module Props.
Import Types.

(** A route feature whose geometry is missing or has fewer than two
    coordinate pairs. *)
Definition degenerate_geometry (route : RouteFeature) : Prop :=
  match geometry route with
  | None => True
  | Some g =>
      match coordinates g with
      | None => True
      | Some coords => (length coords < 2)%nat
      end
  end.

(** A string none of whose characters is the separator. *)
Fixpoint free_of (sep : ascii) (s : string) : Prop :=
  match s with
  | EmptyString => True
  | String c s' => c ≠ sep ∧ free_of sep s'
  end.

(** A string made of white space only. *)
Fixpoint blank (s : string) : bool :=
  match s with
  | EmptyString => true
  | String c s' => Js.isWhiteSpace c && blank s'
  end.

(** A string that is empty or starts with a character that is not white
    space. *)
Definition starts_solid (s : string) : Prop :=
  match s with
  | EmptyString => True
  | String c _ => Js.isWhiteSpace c = false
  end.

(** At most one of the selected stop and the selected route is set. *)
Definition selection_exclusive (state : TransitContext.TransitState) : Prop :=
  selectedStop (TransitContext.selection state) = None
  ∨ selectedRoute (TransitContext.selection state) = None.


(** A client of the loader sees no other client's loads when the answer
    to its [loadTransitData] depends only on what the host serves. *)
Definition cache_private_to_caller : Prop :=
  ∀ srv c1 c2,
    fst (DataLoader.loadTransitData srv c1)
    = fst (DataLoader.loadTransitData srv c2).

(** The body a file loads with: [fetch] resolves to an [ok] response and
    [response.json()] to the parsed body. *)
Definition loaded {T : Type} (fetched : DataLoader.Promise (DataLoader.Response T))
  : option T :=
  match fetched with
  | inr response =>
      if DataLoader.ok response then
        match DataLoader.json response with
        | inr parsed => Some parsed
        | inl _ => None
        end
      else None
  | inl _ => None
  end.

(** All six data files load. *)
Definition all_files_load (srv : DataLoader.Server) : bool :=
  bool_decide (is_Some (loaded (DataLoader.stops_geojson srv)))
  && bool_decide (is_Some (loaded (DataLoader.routes_geojson srv)))
  && bool_decide (is_Some (loaded (DataLoader.stop_to_routes_json srv)))
  && bool_decide (is_Some (loaded (DataLoader.route_to_stops_json srv)))
  && bool_decide (is_Some (loaded (DataLoader.timetable_json srv)))
  && bool_decide (is_Some (loaded (DataLoader.metadata_json srv))).

(** The transit data made of the six bodies a host serves, when all six
    load. *)
Definition served (srv : DataLoader.Server) : option TransitData :=
  stops ← loaded (DataLoader.stops_geojson srv);
  routes ← loaded (DataLoader.routes_geojson srv);
  s2r ← loaded (DataLoader.stop_to_routes_json srv);
  r2s ← loaded (DataLoader.route_to_stops_json srv);
  tt ← loaded (DataLoader.timetable_json srv);
  md ← loaded (DataLoader.metadata_json srv);
  Some {| td_stops := stops; td_routes := routes;
          stopToRoutes := s2r; routeToStops := r2s;
          timetable := tt; metadata := md |}.

(** A file fails on its status only: [fetch] resolves, and the body
    parses whenever it is asked for. *)
Definition fails_on_status_only {T : Type}
  (fetched : DataLoader.Promise (DataLoader.Response T)) : bool :=
  match fetched with
  | inr response =>
      negb (DataLoader.ok response)
      || match DataLoader.json response with inr _ => true | inl _ => false end
  | inl _ => false
  end.

(** The network is up and every body is JSON: a file fails only by a
    response that is not [ok]. *)
Definition only_status_failures (srv : DataLoader.Server) : bool :=
  fails_on_status_only (DataLoader.stops_geojson srv)
  && fails_on_status_only (DataLoader.routes_geojson srv)
  && fails_on_status_only (DataLoader.stop_to_routes_json srv)
  && fails_on_status_only (DataLoader.route_to_stops_json srv)
  && fails_on_status_only (DataLoader.timetable_json srv)
  && fails_on_status_only (DataLoader.metadata_json srv).

(** The payload of the last SET_DATA among dispatched actions. *)
Fixpoint last_SET_DATA (actions : list TransitContext.TransitAction)
  : option TransitData :=
  match actions with
  | [] => None
  | a :: rest =>
      match last_SET_DATA rest with
      | Some d => Some d
      | None => match a with
                | TransitContext.SET_DATA d => Some d
                | _ => None
                end
      end
  end.

(** A stop is a hit of a search: it is of the active type, if there is
    one, and its name matches the query when the query, once normalized,
    has at least two characters. *)
Definition stop_hit (active : option TransitType) (query : string)
  (stop : StopFeature) : Prop :=
  match active with
  | Some t => transit_type (stop_properties stop) = t
  | None => True
  end
  ∧ ((2 <=? String.length (Utils.normalizeSearchString query))%nat = true →
     Utils.matchesSearch (stop_name (stop_properties stop)) query = true).

(** A route is a hit of a search: it is of the active type, if there is
    one, and its name, short name or long name matches the query when the
    query, once normalized, has at least two characters. *)
Definition route_hit (active : option TransitType) (query : string)
  (route : RouteFeature) : Prop :=
  match active with
  | Some t => type_name (properties route) = TransitType_str t
  | None => True
  end
  ∧ ((2 <=? String.length (Utils.normalizeSearchString query))%nat = true →
     Utils.matchesSearch (name (properties route)) query = true
     ∨ Utils.matchesSearch (short_name (properties route)) query = true
     ∨ Utils.matchesSearch (long_name (properties route)) query = true).

#[global] Instance stop_hit_dec active query stop :
  Decision (stop_hit active query stop).
Proof. unfold stop_hit. destruct active; apply _. Defined.

#[global] Instance route_hit_dec active query route :
  Decision (route_hit active query route).
Proof. unfold route_hit. destruct active; apply _. Defined.

(** The number of results of each kind a category lets through. *)
Definition stop_cap (category : SearchBox.SearchCategory) : nat :=
  match category with
  | SearchBox.CatAll => 8
  | SearchBox.CatStops => 20
  | SearchBox.CatRoutes => 0
  end.

Definition route_cap (category : SearchBox.SearchCategory) : nat :=
  match category with
  | SearchBox.CatAll => 8
  | SearchBox.CatRoutes => 20
  | SearchBox.CatStops => 0
  end.

(** The filters with every type on, and with one type only. *)
Definition all_on : FilterState :=
  {| f_metro := true; f_rail := true; f_bus := true |}.

Definition only (t : TransitType) : FilterState :=
  {| f_metro := bool_decide (t = metro); f_rail := bool_decide (t = rail);
     f_bus := bool_decide (t = bus) |}.

End Props.

(* ===================================================================== *)
(** ** Concrete data used as inputs of examples *)
(* ===================================================================== *)

Module Samples.
Import Types.

Definition empty_data (v : string) : TransitData := {|
  td_stops := {| features := [] |};
  td_routes := {| features := [] |};
  stopToRoutes := ∅;
  routeToStops := ∅;
  timetable := ∅;
  metadata := {| generated_at := "2026-01-04T12:00:00Z"; version := v;
                 city := "Hyderabad"; totals_stops := 0; totals_routes := 0 |}
|}.

Definition response_ok {T : Type} (b : T)
  : DataLoader.Promise (DataLoader.Response T) :=
  inr {| DataLoader.ok := true; DataLoader.statusText := "OK";
         DataLoader.json := inr b |}.

(** A host serving the six files of [d]. *)
Definition serving (d : TransitData) : DataLoader.Server := {|
  DataLoader.stops_geojson := response_ok (td_stops d);
  DataLoader.routes_geojson := response_ok (td_routes d);
  DataLoader.stop_to_routes_json := response_ok (stopToRoutes d);
  DataLoader.route_to_stops_json := response_ok (routeToStops d);
  DataLoader.timetable_json := response_ok (timetable d);
  DataLoader.metadata_json := response_ok (metadata d);
  DataLoader.settled_at := fun _ => 0%nat
|}.

Definition at_time (h m s : N) : Preprocessor.GtfsTime :=
  {| Preprocessor.gt_hours := h; Preprocessor.gt_minutes := m;
     Preprocessor.gt_seconds := s |}.






Definition demo_stop (id n : string) (t : TransitType) (rs : list string)
  : StopFeature :=
  {| stop_geometry := {| point_coordinates := (7847 # 100, 1737 # 100)%Q |};
     stop_properties :=
       {| stop_id := id; stop_name := n; stop_agency := "HMRL";
          transit_type := t; routes := rs;
          route_count := Z.of_nat (length rs);
          first_time := "05:30"; last_time := "23:00" |} |}.

Definition demo_route (id n tn col : string) (ss : list string) : RouteFeature :=
  {| geometry := Some {| coordinates :=
                           Some [(7847 # 100, 1737 # 100)%Q;
                                 (7848 # 100, 1738 # 100)%Q] |};
     properties :=
       {| route_id := id; name := n; short_name := n; long_name := n;
          type := 1; type_name := tn; agency := "HMRL"; color := col;
          text_color := "#FFFFFF"; stops := ss;
          stop_count := Z.of_nat (length ss) |} |}.

Definition demo_info (id n : string) (k : Z) : RouteStopInfo :=
  {| rs_stop_id := id; rs_name := n; seq := k |}.

(** Two metro lines crossing at MGBS, and a bus stop off both. *)
Definition demo_data : TransitData := {|
  td_stops := {| features :=
    [demo_stop "HMRL_MGBS" "MGBS" metro ["HMRL_RED"; "HMRL_GREEN"];
     demo_stop "HMRL_LBN" "LB Nagar" metro ["HMRL_RED"];
     demo_stop "TGSRTC_1" "Koti" bus []] |};
  td_routes := {| features :=
    [demo_route "HMRL_RED" "Red Line" "metro" "#FF0000" ["HMRL_MGBS"; "HMRL_LBN"];
     demo_route "HMRL_GREEN" "Green Line" "metro" "#00FF00" ["HMRL_MGBS"]] |};
  stopToRoutes :=
    <[ "HMRL_MGBS" := ["HMRL_RED"; "HMRL_GREEN"] ]>
      (<[ "HMRL_LBN" := ["HMRL_RED"] ]> ∅);
  routeToStops :=
    <[ "HMRL_RED" := [demo_info "HMRL_MGBS" "MGBS" 1; demo_info "HMRL_LBN" "LB Nagar" 2] ]>
      (<[ "HMRL_GREEN" := [demo_info "HMRL_MGBS" "MGBS" 1] ]> ∅);
  timetable := ∅;
  metadata := {| generated_at := "2026-01-04T12:00:00Z"; version := "1";
                 city := "Hyderabad"; totals_stops := 3; totals_routes := 2 |}
|}.

(** The state once [demo_data] is loaded. *)
Definition demo_state : TransitContext.TransitState :=
  TransitContext.transitReducer TransitContext.initialState
    (TransitContext.SET_DATA demo_data).

End Samples.

(* ===================================================================== *)
(** ** lib/utils.ts: identifiers, times, agencies *)
(* ===================================================================== *)

Section IdHelpers.
Import Types Props.

Lemma split_nonempty sep s : Js.split sep s ≠ [].
Proof.
  destruct s as [|c s]; simpl; [done|].
  destruct (Ascii.eqb c sep); [done|].
  by destruct (Js.split sep s).
Qed.

(** Joining what [split] produced on the same separator gives the string
    back. *)
Lemma join_split sep s : Js.join (String sep EmptyString) (Js.split sep s) = s.
Proof.
  induction s as [|c s IH]; [done|].
  simpl. destruct (Ascii.eqb_spec c sep) as [->|Hne].
  - pose proof (split_nonempty sep s) as Hs.
    destruct (Js.split sep s) as [|p ps] eqn:E; [done|].
    change (Js.join (String sep EmptyString) (EmptyString :: p :: ps))
      with (String sep (Js.join (String sep EmptyString) (p :: ps))).
    by rewrite IH.
  - pose proof (split_nonempty sep s) as Hs.
    destruct (Js.split sep s) as [|p ps] eqn:E; [done|].
    destruct ps as [|q qs].
    + simpl in *. by rewrite IH.
    + change (Js.join (String sep EmptyString) (String c p :: q :: qs))
        with (String c (Js.join (String sep EmptyString) (p :: q :: qs))).
      by rewrite IH.
Qed.

(** A prefix without separator comes out as the first piece. *)
Lemma split_prefix sep a s :
  free_of sep a →
  Js.split sep (a +:+ String sep s) = a :: Js.split sep s.
Proof.
  induction a as [|c a IH]; simpl.
  - intros _. by rewrite Ascii.eqb_refl.
  - intros [Hc Ha]. apply Ascii.eqb_neq in Hc. rewrite Hc.
    by rewrite (IH Ha).
Qed.

Lemma agency_code_free_of_underscore a : free_of "_" (AgencyCode_str a).
Proof. destruct a; simpl; repeat split; discriminate. Qed.

(** C2. Namespacing round-trip: for every agency code [a] of HMRL, MMTS,
    TGSRTC and every id string [s], whether or not [s] contains
    underscores, [parseStopId (a + "_" + s)] returns [{agency: a,
    originalId: s}], and [parseRouteId] returns the same. *)
Theorem parse_namespaced_id_roundtrip (a : AgencyCode) (s : string) :
  Utils.parseStopId (AgencyCode_str a +:+ "_" +:+ s)
  = {| Utils.parsed_agency := Some (AgencyCode_str a); Utils.originalId := s |}
  ∧ Utils.parseRouteId (AgencyCode_str a +:+ "_" +:+ s)
  = {| Utils.parsed_agency := Some (AgencyCode_str a); Utils.originalId := s |}.
Proof.
  unfold Utils.parseStopId, Utils.parseRouteId.
  change ("_" +:+ s) with (String "_" s).
  rewrite (split_prefix "_" _ s (agency_code_free_of_underscore a)).
  change "_" with (String "_"%char EmptyString) at 1 2.
  by rewrite join_split.
Qed.

Example parseStopId_with_inner_underscores :
  Utils.parseStopId "TGSRTC_STOP_123"
  = {| Utils.parsed_agency := Some "TGSRTC"; Utils.originalId := "STOP_123" |}.
Proof. reflexivity. Qed.

(** C4. Time formatting is the identity on every non-empty time string,
    hence on every string already in normalized HH:MM form. *)
Theorem formatTime_idempotent (t : string) :
  t ≠ "" → Utils.formatTime t = t.
Proof.
  intros Ht. unfold Utils.formatTime. by destruct t.
Qed.

Lemma formatTime_idempotent_witness :
  "01:30" ≠ "" ∧ Utils.formatTime "01:30" = "01:30".
Proof.
  split; [discriminate | apply (formatTime_idempotent "01:30"); discriminate].
Defined.

Example formatTime_empty : Utils.formatTime "" = "--:--".
Proof. reflexivity. Qed.

(** C6. The transit category of an agency is a function into exactly the
    three categories metro, rail and bus, given by a fixed table: HMRL is
    metro, MMTS is rail, TGSRTC is bus, and every other input is bus. *)
Theorem getAgencyTransitType_table :
  (∀ agency, Utils.getAgencyTransitType agency ∈ [metro; rail; bus])
  ∧ (∀ x y, x = y → Utils.getAgencyTransitType x = Utils.getAgencyTransitType y)
  ∧ Utils.getAgencyTransitType "HMRL" = metro
  ∧ Utils.getAgencyTransitType "MMTS" = rail
  ∧ Utils.getAgencyTransitType "TGSRTC" = bus
  ∧ (∀ agency, agency ≠ "HMRL" → agency ≠ "MMTS" → agency ≠ "TGSRTC" →
       Utils.getAgencyTransitType agency = bus).
Proof.
  repeat split; try reflexivity.
  - intros agency. destruct (Utils.getAgencyTransitType agency); set_solver.
  - by intros x y ->.
  - intros agency H1 H2 H3. unfold Utils.getAgencyTransitType.
    apply String.eqb_neq in H1, H2, H3. by rewrite H1, H2, H3.
Qed.

End IdHelpers.

(* ===================================================================== *)
(** ** lib/dataLoader.ts: the loaded-data cache *)
(* ===================================================================== *)

Section LoaderCache.
Import Types DataLoader.

(** A filled cache answers [loadTransitData] by itself. *)
Lemma loadTransitData_cached srv d :
  loadTransitData srv (Some d) = (inr d, Some d).
Proof. reflexivity. Qed.

(** A load either leaves the cache as it was or fills it. *)
Lemma loadTransitData_cache srv c :
  snd (loadTransitData srv c) = c
  ∨ ∃ d, c = None ∧ snd (loadTransitData srv c) = Some d.
Proof.
  destruct c as [d|]; [by left|].
  unfold loadTransitData.
  match goal with |- context [match ?f with inl _ => _ | inr _ => _ end] =>
    destruct f as [e|d] end; [by left|right; eauto].
Qed.

Lemma cache_after_filled srv call d :
  call ≠ CallClearCache → cache_after srv call (Some d) = Some d.
Proof. by destruct call. Qed.

(** A server that serves all six files fills an empty cache with them. *)
Lemma loadTransitData_serving d :
  loadTransitData (Samples.serving d) None = (inr d, Some d).
Proof. by destruct d. Qed.

(** C5, as stated, fails: the answer to a load depends on the loads made
    before it by anyone.  After a first client loaded while the host
    served version 1, a second client loading while the host serves
    version 2 is answered with version 1. *)
Lemma cache_shared_between_callers :
  let first := Samples.empty_data "1" in
  let second := Samples.empty_data "2" in
  let cachedData := snd (loadTransitData (Samples.serving first) None) in
  fst (loadTransitData (Samples.serving second) cachedData) = inr first
  ∧ fst (loadTransitData (Samples.serving second) None) = inr second
  ∧ first ≠ second
  ∧ ¬ Props.cache_private_to_caller.
Proof.
  cbv zeta. rewrite !loadTransitData_serving. simpl.
  assert (Hne : Samples.empty_data "1" ≠ Samples.empty_data "2").
  { intros H. apply (f_equal (fun d => version (metadata d))) in H.
    discriminate H. }
  repeat split; [done|].
  intros Hpriv.
  specialize (Hpriv (Samples.serving (Samples.empty_data "2"))
                    (Some (Samples.empty_data "1")) None).
  rewrite loadTransitData_serving in Hpriv. simpl in Hpriv.
  by injection Hpriv.
Qed.

(** C5, amended.  The loaded-data cache is a single module-level variable
    shared by every caller of the loader: once it is filled, each
    [loadTransitData] is answered from it, whatever the host serves, and
    it is emptied by an explicit [clearCache] call and by nothing else,
    over any sequence of calls. *)
Theorem cache_cleared_only_by_clearCache :
  ∀ (d : TransitData),
    (∀ srv, loadTransitData srv (Some d) = (inr d, Some d))
    ∧ (∀ srv call, cache_after srv call (Some d) = None ↔ call = CallClearCache)
    ∧ (∀ calls, CallClearCache ∉ map snd calls →
         cache_after_calls calls (Some d) = Some d).
Proof.
  intros d. split; [done|]. split.
  - intros srv call. split.
    + intros H. destruct call; try done.
    + by intros ->.
  - intros calls. unfold cache_after_calls.
    induction calls as [|[srv call] calls IH]; [done|].
    simpl. intros [Hcall Hnot]%not_elem_of_cons.
    rewrite cache_after_filled by done.
    by apply IH.
Qed.

Lemma cache_cleared_only_by_clearCache_witness :
  let d := Samples.empty_data "1" in
  let srv := Samples.serving (Samples.empty_data "2") in
  cache_after_calls
    [(srv, CallLoadTransitData); (srv, CallLoadMetadata);
     (srv, CallIsDataLoaded); (srv, CallLoadTransitData)] (Some d) = Some d.
Proof.
  cbv zeta.
  apply (proj2 (proj2 (cache_cleared_only_by_clearCache (Samples.empty_data "1")))).
  simpl. rewrite !not_elem_of_cons. repeat split; try discriminate.
  apply not_elem_of_nil.
Defined.

End LoaderCache.

(* ===================================================================== *)
(** ** context/TransitContext.tsx: selection and visibility *)
(* ===================================================================== *)

Section Reducer.
Import Types TransitContext Props.

Lemma reducer_preserves_exclusive state action :
  selection_exclusive state → selection_exclusive (transitReducer state action).
Proof.
  unfold selection_exclusive.
  destruct action; simpl; auto.
Qed.

Lemma reachable_dispatch_all actions : reachable (dispatch_all actions).
Proof.
  unfold dispatch_all.
  induction actions as [|a actions IH] using rev_ind.
  - constructor.
  - rewrite fold_left_app. simpl. by constructor.
Qed.

(** C8. Selection mutual exclusion: in every state reachable from the
    initial state by dispatched actions at most one of [selectedStop] and
    [selectedRoute] is non-null; SELECT_STOP clears the selected route,
    SELECT_ROUTE clears the selected stop, CLEAR_SELECTION clears both,
    and every action preserves the property. *)
Theorem selection_mutually_exclusive :
  (∀ state, reachable state → selection_exclusive state)
  ∧ (∀ actions, selection_exclusive (dispatch_all actions))
  ∧ (∀ state p,
       selectedRoute (selection (transitReducer state (SELECT_STOP p))) = None
       ∧ selectedStop (selection (transitReducer state (SELECT_STOP p))) = p)
  ∧ (∀ state p,
       selectedStop (selection (transitReducer state (SELECT_ROUTE p))) = None
       ∧ selectedRoute (selection (transitReducer state (SELECT_ROUTE p))) = p)
  ∧ (∀ state,
       selectedStop (selection (transitReducer state CLEAR_SELECTION)) = None
       ∧ selectedRoute (selection (transitReducer state CLEAR_SELECTION)) = None)
  ∧ (∀ state action, selection_exclusive state →
       selection_exclusive (transitReducer state action)).
Proof.
  assert (Hreach : ∀ state, reachable state → selection_exclusive state).
  { induction 1 as [|state action _ IH].
    - by left.
    - by apply reducer_preserves_exclusive. }
  repeat split; try done.
  - intros actions. apply Hreach, reachable_dispatch_all.
  - intros state action. apply reducer_preserves_exclusive.
Qed.

Lemma selection_mutually_exclusive_witness :
  selection_exclusive
    (transitReducer
       (transitReducer initialState (SELECT_STOP (Some "HMRL_MGBS")))
       (SELECT_ROUTE (Some "HMRL_RED"))).
Proof.
  apply (proj1 selection_mutually_exclusive).
  do 2 constructor. constructor.
Defined.

(** C9. An empty visible-route set shows every route: with
    [visibleRoutes] empty [isRouteVisible] is true for every route id,
    and otherwise it is true exactly for the members of [visibleRoutes]. *)
Theorem isRouteVisible_empty_shows_all (state : TransitState) (routeId : string) :
  (visibleRoutes state = ∅ → isRouteVisible state routeId = true)
  ∧ (visibleRoutes state ≠ ∅ →
       (isRouteVisible state routeId = true ↔ routeId ∈ visibleRoutes state)).
Proof.
  unfold isRouteVisible. split.
  - intros ->. by rewrite size_empty.
  - intros Hne.
    destruct (Nat.eqb_spec (size (visibleRoutes state)) 0) as [H0|H0].
    + apply size_empty_inv in H0. apply leibniz_equiv in H0. done.
    + by rewrite bool_decide_eq_true.
Qed.

Lemma isRouteVisible_empty_shows_all_witness :
  isRouteVisible initialState "HMRL_RED" = true
  ∧ isRouteVisible (transitReducer initialState (SELECT_ROUTE (Some "HMRL_RED")))
      "HMRL_BLUE" = false.
Proof.
  split.
  - apply (proj1 (isRouteVisible_empty_shows_all initialState "HMRL_RED")).
    reflexivity.
  - apply not_true_is_false. intros H.
    apply (proj2 (isRouteVisible_empty_shows_all
                    (transitReducer initialState (SELECT_ROUTE (Some "HMRL_RED")))
                    "HMRL_BLUE")) in H.
    + simpl in H. set_solver.
    + simpl. intros Heq.
      assert (Hin : "HMRL_RED" ∈ (∅ : gset string))
        by (rewrite <- Heq; set_solver).
      set_solver.
Defined.

End Reducer.

(* ===================================================================== *)
(** ** components/Map/RouteLayer.tsx: degenerate geometries *)
(* ===================================================================== *)

Section Renderer.
Import Types RouteLayer Props.

(** C10. Degenerate-geometry safety: [RoutePolyline] renders nothing
    exactly for the route features whose geometry is missing or has fewer
    than 2 coordinate pairs; a polyline is produced only from at least 2
    coordinates, one position per coordinate pair with latitude first. *)
Theorem RoutePolyline_degenerate_geometry (route : RouteFeature) (isHighlighted : bool) :
  (RoutePolyline route isHighlighted = None ↔ degenerate_geometry route)
  ∧ (∀ p, RoutePolyline route isHighlighted = Some p →
       ∃ g coords, geometry route = Some g ∧ coordinates g = Some coords
                   ∧ (2 ≤ length coords)%nat
                   ∧ positions p = map (fun c => (snd c, fst c)) coords).
Proof.
  unfold RoutePolyline, degenerate_geometry.
  destruct (geometry route) as [g|]; [|split; [done|intros p; discriminate]].
  destruct (coordinates g) as [coords|] eqn:Hcoords;
    [|split; [done|intros p; discriminate]].
  destruct (Z.ltb_spec (Z.of_nat (length coords)) 2) as [Hlt|Hge].
  - split; [split; [lia|done]|intros p; discriminate].
  - split.
    + split; [discriminate|lia].
    + intros p [= <-]. exists g, coords. simpl.
      split; [done|]. split; [done|]. split; [lia|].
      apply map_ext. by intros [lng lat].
Qed.

Lemma RoutePolyline_degenerate_geometry_witness :
  RoutePolyline
    {| geometry := Some {| coordinates := Some [(784 # 10, 174 # 10)%Q] |};
       properties := {| route_id := "HMRL_RED"; name := "Red Line";
                        short_name := "RED"; long_name := "Red Line";
                        type := 1; type_name := "metro"; agency := "HMRL";
                        color := "#FF0000"; text_color := "#FFFFFF";
                        stops := []; stop_count := 0 |} |} false = None.
Proof.
  match goal with |- RoutePolyline ?r ?h = None =>
    apply (proj1 (RoutePolyline_degenerate_geometry r h)) end.
  unfold degenerate_geometry. simpl. lia.
Defined.

End Renderer.

(* ===================================================================== *)
(** ** Timetable Builder: order of a bucket *)
(* ===================================================================== *)

Section Timetable.
Import Types Preprocessor Props.

#[local] Instance original_le_total : Total original_le.
Proof. intros x y. unfold original_le. lia. Qed.

#[local] Instance original_le_trans : Transitive original_le.
Proof. intros x y z. unfold original_le. lia. Qed.







Example normalize_time_past_midnight :
  normalize_time <$> parse_gtfs_time "25:30:00" = Some "01:30".
Proof. by vm_compute. Qed.

Example build_bucket_same_day_and_next_day :
  build_bucket [Samples.at_time 25 10 0; Samples.at_time 8 15 0;
                Samples.at_time 23 50 0; Samples.at_time 8 15 0]
  = ["08:15"; "23:50"; "01:10"].
Proof. by vm_compute. Qed.

End Timetable.

(* ===================================================================== *)
(** ** lib/utils.ts: parsing any id, time ranges, search, sorting *)
(* ===================================================================== *)

Section UtilsMore.
Import Types Props.

Lemma split_head_free sep s a rest :
  Js.split sep s = a :: rest → free_of sep a.
Proof.
  revert a rest. induction s as [|c s IH]; intros a rest; simpl.
  - by intros [= <- _].
  - destruct (Ascii.eqb_spec c sep) as [->|Hne].
    + by intros [= <- _].
    + destruct (Js.split sep s) as [|p ps] eqn:E.
      * by intros [= <- _].
      * intros [= <- _]. simpl. split; [done|]. by eapply IH.
Qed.

(** X1. Parsing any id: [parseStopId] and [parseRouteId] agree, never
    fail, and return as agency the part before the first underscore; the
    id is rebuilt from the two parts: either it has no underscore, and it
    is the agency with an empty original id, or it is agency, underscore,
    original id. *)
Theorem parse_id_reassembles (prefixedId : string) :
  ∃ a o,
    Utils.parseStopId prefixedId
    = {| Utils.parsed_agency := Some a; Utils.originalId := o |}
    ∧ Utils.parseRouteId prefixedId = Utils.parseStopId prefixedId
    ∧ free_of "_" a
    ∧ (prefixedId = a ∧ o = "" ∨ prefixedId = a +:+ "_" +:+ o).
Proof.
  unfold Utils.parseStopId, Utils.parseRouteId.
  pose proof (split_nonempty "_" prefixedId) as Hne.
  pose proof (join_split "_" prefixedId) as Hjoin.
  destruct (Js.split "_" prefixedId) as [|a rest] eqn:Hsplit; [done|].
  exists a, (Js.join "_" rest).
  split; [done|]. split; [done|].
  split; [by eapply split_head_free|].
  destruct rest as [|r rs]; [left; by split|right].
  rewrite <- Hjoin. reflexivity.
Qed.

(** A time range is "Schedule not available" as soon as one end is
    the empty string, and otherwise the two times joined by " - ": the
    "--:--" placeholder of [formatTime] never shows in a range. *)
Lemma formatTimeRange_cases (first last : string) :
  Utils.formatTimeRange first last
  = if Js.truthy first && Js.truthy last
    then first +:+ " - " +:+ last
    else "Schedule not available".
Proof.
  unfold Utils.formatTimeRange, Utils.formatTime.
  by destruct first, last.
Qed.

Lemma toLowerCase_unit_ws c :
  Js.isWhiteSpace (Js.toLowerCase_unit c) = Js.isWhiteSpace c.
Proof. by destruct c as [[] [] [] [] [] [] [] []]; vm_compute. Qed.

Lemma toLowerCase_unit_idem c :
  Js.toLowerCase_unit (Js.toLowerCase_unit c) = Js.toLowerCase_unit c.
Proof. by destruct c as [[] [] [] [] [] [] [] []]; vm_compute. Qed.

Lemma toLowerCase_idem s : Js.toLowerCase (Js.toLowerCase s) = Js.toLowerCase s.
Proof.
  induction s as [|c s IH]; simpl; [done|].
  by rewrite toLowerCase_unit_idem, IH.
Qed.

Lemma toLowerCase_app s t :
  Js.toLowerCase (s +:+ t) = Js.toLowerCase s +:+ Js.toLowerCase t.
Proof. induction s as [|c s IH]; simpl; [done|]. by rewrite IH. Qed.

Lemma toLowerCase_blank s : blank (Js.toLowerCase s) = blank s.
Proof.
  induction s as [|c s IH]; simpl; [done|].
  by rewrite toLowerCase_unit_ws, IH.
Qed.

Lemma toLowerCase_trimStart s :
  Js.toLowerCase (Js.trimStart s) = Js.trimStart (Js.toLowerCase s).
Proof.
  induction s as [|c s IH]; simpl; [done|].
  rewrite toLowerCase_unit_ws. by destruct (Js.isWhiteSpace c).
Qed.

Lemma toLowerCase_trimEnd s :
  Js.toLowerCase (Js.trimEnd s) = Js.trimEnd (Js.toLowerCase s).
Proof.
  induction s as [|c s IH]; simpl; [done|].
  rewrite <- IH, toLowerCase_unit_ws.
  destruct (Js.trimEnd s) as [|d rest]; simpl; [|done].
  by destruct (Js.isWhiteSpace c).
Qed.

Lemma trimStart_blank s : blank s = true → Js.trimStart s = "".
Proof.
  induction s as [|c s IH]; simpl; [done|].
  intros [Hc Hs]%andb_true_iff. rewrite Hc. by apply IH.
Qed.

Lemma trimStart_app_blank a s : blank a = true → Js.trimStart (a +:+ s) = Js.trimStart s.
Proof.
  induction a as [|c a IH]; simpl; [done|].
  intros [Hc Ha]%andb_true_iff. rewrite Hc. by apply IH.
Qed.

Lemma trimEnd_blank s : blank s = true → Js.trimEnd s = "".
Proof.
  induction s as [|c s IH]; simpl; [done|].
  intros [Hc Hs]%andb_true_iff. by rewrite (IH Hs), Hc.
Qed.

Lemma trimEnd_app_blank s b : blank b = true → Js.trimEnd (s +:+ b) = Js.trimEnd s.
Proof.
  intros Hb. induction s as [|c s IH]; simpl.
  - by apply trimEnd_blank.
  - by rewrite IH.
Qed.

Lemma trimStart_solid s : starts_solid (Js.trimStart s).
Proof.
  induction s as [|c s IH]; simpl; [done|].
  by destruct (Js.isWhiteSpace c) eqn:Hc.
Qed.

Lemma trimStart_of_solid s : starts_solid s → Js.trimStart s = s.
Proof. destruct s as [|c s]; simpl; [done|]. by intros ->. Qed.

Lemma trimEnd_solid s : starts_solid s → starts_solid (Js.trimEnd s).
Proof.
  destruct s as [|c s]; simpl; [done|]. intros Hc.
  destruct (Js.trimEnd s); simpl; [by rewrite Hc|done].
Qed.

Lemma trimEnd_idem s : Js.trimEnd (Js.trimEnd s) = Js.trimEnd s.
Proof.
  induction s as [|c s IH]; simpl; [done|].
  destruct (Js.trimEnd s) as [|d rest] eqn:E.
  - destruct (Js.isWhiteSpace c) eqn:Hc; simpl; [done|by rewrite Hc].
  - simpl in *. by rewrite IH.
Qed.

Lemma trimStart_app_solid s b :
  blank s = false → Js.trimStart (s +:+ b) = Js.trimStart s +:+ b.
Proof.
  induction s as [|c s IH]; simpl; [done|].
  destruct (Js.isWhiteSpace c); simpl; [apply IH|done].
Qed.

Lemma trim_idem s : Js.trim (Js.trim s) = Js.trim s.
Proof.
  unfold Js.trim.
  rewrite (trimStart_of_solid (Js.trimEnd (Js.trimStart s)))
    by apply trimEnd_solid, trimStart_solid.
  apply trimEnd_idem.
Qed.

(** White space around a string does not survive [trim]. *)
Lemma trim_padding a s b :
  blank a = true → blank b = true → Js.trim (a +:+ s +:+ b) = Js.trim s.
Proof.
  intros Ha Hb. unfold Js.trim. rewrite trimStart_app_blank by done.
  destruct (blank s) eqn:Hs.
  - rewrite (trimStart_blank s Hs).
    rewrite (trimStart_app_blank s b Hs), (trimStart_blank b Hb). done.
  - rewrite trimStart_app_solid by done. by apply trimEnd_app_blank.
Qed.

Lemma toLowerCase_trim s : Js.toLowerCase (Js.trim s) = Js.trim (Js.toLowerCase s).
Proof.
  unfold Js.trim. by rewrite toLowerCase_trimEnd, toLowerCase_trimStart.
Qed.

Lemma includes_empty text : Js.includes text "" = true.
Proof. by destruct text. Qed.

Lemma prefix_refl s : String.prefix s s = true.
Proof. induction s as [|c s IH]; simpl; [done|]. by destruct (ascii_dec c c). Qed.

Lemma normalizeSearchString_padding a s b :
  blank a = true → blank b = true →
  Utils.normalizeSearchString (a +:+ s +:+ b) = Utils.normalizeSearchString s.
Proof.
  intros Ha Hb. unfold Utils.normalizeSearchString.
  rewrite !toLowerCase_app. apply trim_padding; by rewrite toLowerCase_blank.
Qed.

(** X2. A query that is empty or made of white space only matches every
    text. *)
Theorem matchesSearch_blank_query (text query : string) :
  blank query = true → Utils.matchesSearch text query = true.
Proof.
  intros Hq. unfold Utils.matchesSearch, Utils.normalizeSearchString, Js.trim.
  rewrite (trimStart_blank (Js.toLowerCase query))
    by by rewrite toLowerCase_blank.
  apply includes_empty.
Qed.

Lemma matchesSearch_blank_query_witness :
  Utils.matchesSearch "MGBS Metro Station" "   " = true.
Proof. apply matchesSearch_blank_query. reflexivity. Defined.

(** X3. Searching ignores white space around the text and around the
    query, and ignores case: padding either with white space, or
    lower-casing either, does not change the answer; normalizing is
    idempotent, and every text matches itself. *)
Theorem matchesSearch_ignores_padding_and_case
  (text query a b a' b' : string) :
  blank a = true → blank b = true → blank a' = true → blank b' = true →
  Utils.matchesSearch (a +:+ text +:+ b) (a' +:+ query +:+ b')
  = Utils.matchesSearch text query
  ∧ Utils.matchesSearch (Js.toLowerCase text) query
    = Utils.matchesSearch text query
  ∧ Utils.matchesSearch text (Js.toLowerCase query)
    = Utils.matchesSearch text query
  ∧ Utils.normalizeSearchString (Utils.normalizeSearchString text)
    = Utils.normalizeSearchString text
  ∧ Utils.matchesSearch text text = true.
Proof.
  intros Ha Hb Ha' Hb'. unfold Utils.matchesSearch.
  rewrite !normalizeSearchString_padding by done.
  split; [done|].
  unfold Utils.normalizeSearchString. rewrite !toLowerCase_idem.
  split; [done|]. split; [done|]. split.
  - by rewrite toLowerCase_trim, toLowerCase_idem, trim_idem.
  - destruct (Js.trim (Js.toLowerCase text)) as [|c r] eqn:E; [done|].
    simpl. destruct (ascii_dec c c); [|done].
    by rewrite prefix_refl.
Qed.

Lemma matchesSearch_ignores_padding_and_case_witness :
  Utils.matchesSearch " Ameerpet Metro " "  AMEERPET" = Utils.matchesSearch "Ameerpet Metro" "AMEERPET".
Proof.
  apply (proj1 (matchesSearch_ignores_padding_and_case
                  "Ameerpet Metro" "AMEERPET" " " " " "  " "" eq_refl eq_refl eq_refl eq_refl)).
Defined.

Example matchesSearch_finds_station :
  Utils.matchesSearch "Ameerpet Metro" " AMEER" = true
  ∧ Utils.matchesSearch "Ameerpet Metro" "bus" = false.
Proof. by vm_compute. Qed.

(** Where a stable insertion puts an element: past everything it compares
    greater than, in front of the first element it does not. *)
Lemma sort_insert_pass {A} (cmp : A → A → Z) x front back :
  (∀ y, y ∈ front → (0 < cmp x y)%Z) →
  Js.sort_insert cmp x (front ++ back)%list
  = (front ++ Js.sort_insert cmp x back)%list.
Proof.
  induction front as [|y front IH]; simpl; [done|].
  intros Hfront.
  destruct (Z.leb_spec (cmp x y) 0) as [Hle|Hgt].
  - specialize (Hfront y (list_elem_of_here _ _)). lia.
  - f_equal. apply IH. intros z Hz. apply Hfront. by right.
Qed.

Lemma sort_insert_here {A} (cmp : A → A → Z) x back :
  (∀ y, y ∈ back → (cmp x y <= 0)%Z) →
  Js.sort_insert cmp x back = x :: back.
Proof.
  destruct back as [|y back]; simpl; [done|].
  intros Hback. specialize (Hback y (list_elem_of_here _ _)).
  by destruct (Z.leb_spec (cmp x y) 0); [|lia].
Qed.

(** X4. [sortByTransitType] returns the metro items, then the rail items,
    then the bus items, each group in the order it had in the input. *)
Theorem sortByTransitType_groups {T : Type}
  (transit_type_of : T → TransitType) (items : list T) :
  Utils.sortByTransitType transit_type_of items
  = (filter (fun i => transit_type_of i = metro) items
     ++ filter (fun i => transit_type_of i = rail) items
     ++ filter (fun i => transit_type_of i = bus) items)%list.
Proof.
  unfold Utils.sortByTransitType, Js.sort.
  induction items as [|x items IH]; [done|].
  simpl foldr. rewrite IH. rewrite !filter_cons.
  destruct (transit_type_of x) eqn:Hx.
  - repeat case_decide; try done.
    apply sort_insert_here. intros y _. rewrite Hx.
    destruct (transit_type_of y); simpl; lia.
  - repeat case_decide; try done.
    rewrite sort_insert_pass.
    + f_equal. apply sort_insert_here.
      intros y [[Hy _]%list_elem_of_filter|[Hy _]%list_elem_of_filter]%elem_of_app;
        rewrite Hx, Hy; simpl; lia.
    + intros y [Hy _]%list_elem_of_filter. rewrite Hx, Hy. simpl. lia.
  - repeat case_decide; try done.
    rewrite sort_insert_pass.
    + f_equal. rewrite sort_insert_pass.
      * f_equal. apply sort_insert_here.
        intros y [Hy _]%list_elem_of_filter. rewrite Hx, Hy. simpl. lia.
      * intros y [Hy _]%list_elem_of_filter. rewrite Hx, Hy. simpl. lia.
    + intros y [Hy _]%list_elem_of_filter. rewrite Hx, Hy. simpl. lia.
Qed.

End UtilsMore.

(* ===================================================================== *)
(** ** lib/dataLoader.ts and the provider: loading, failing, retrying *)
(* ===================================================================== *)

Section Loading.
Import Types DataLoader TransitContext Props.

Lemma fetchJson_loaded {T} filename (fetched : Promise (Response T)) :
  match loaded fetched with
  | Some parsed => fetchJson filename fetched = inr parsed
  | None => is_Some (rejected (fetchJson filename fetched))
  end.
Proof.
  unfold loaded, fetchJson, await.
  destruct fetched as [reason|response]; [by eexists|].
  destruct (ok response); simpl; [|by eexists].
  destruct (json response); [by eexists|done].
Qed.

Lemma fetchJson_fulfils {T} filename (fetched : Promise (Response T)) parsed :
  loaded fetched = Some parsed → fetchJson filename fetched = inr parsed.
Proof.
  intros Hl. pose proof (fetchJson_loaded filename fetched) as H.
  by rewrite Hl in H.
Qed.

Lemma fetchJson_rejects {T} filename (fetched : Promise (Response T)) :
  loaded fetched = None →
  ∃ reason, fetchJson filename fetched = inl reason.
Proof.
  intros Hl. pose proof (fetchJson_loaded filename fetched) as H.
  rewrite Hl in H. destruct (fetchJson filename fetched) as [reason|v]; [eauto|].
  by destruct H.
Qed.

(** A file that fails on its status only rejects with [fetchJson]'s own
    error. *)
Lemma fetchJson_status_failure {T} filename (fetched : Promise (Response T)) reason :
  fails_on_status_only fetched = true →
  rejected (fetchJson filename fetched) = Some reason →
  ∃ message, reason = ErrorObject message
             ∧ String.prefix "Failed to fetch " message = true.
Proof.
  unfold fails_on_status_only, fetchJson, await.
  destruct fetched as [r|response]; [done|].
  destruct (ok response); simpl.
  - destruct (json response); [done|]. by intros _ ?.
  - intros _ [= <-]. eexists. split; [reflexivity|]. simpl.
    match goal with |- String.prefix EmptyString ?x = true => by destruct x end.
Qed.

(** The files whose promise rejects, and the one [Promise.all] reports. *)
Lemma sooner_fold srv (l : list DataFile) (best : option DataFile) :
  (∀ b, best = Some b → is_Some (rejection srv b)) →
  match foldl (sooner srv) best l with
  | None => best = None ∧ ∀ g, g ∈ l → rejection srv g = None
  | Some f =>
      is_Some (rejection srv f)
      ∧ (∀ g, g ∈ l → is_Some (rejection srv g) →
              (settled_at srv f <= settled_at srv g)%nat)
      ∧ (∀ b, best = Some b → (settled_at srv f <= settled_at srv b)%nat)
  end.
Proof.
  revert best. induction l as [|x l IH]; intros best Hbest; simpl.
  - destruct best as [b|].
    + split; [by apply Hbest|]. split; [by intros g ?%elem_of_nil|].
      by intros ? [= <-].
    + split; [done|]. by intros g ?%elem_of_nil.
  - assert (Hnext : ∀ b, sooner srv best x = Some b → is_Some (rejection srv b)).
    { unfold sooner. intros b.
      destruct (rejection srv x) as [r|] eqn:Hx; [|by apply Hbest].
      destruct best as [b0|]; [|by intros [= <-]; rewrite Hx].
      destruct (settled_at srv x <? settled_at srv b0)%nat;
        [by intros [= <-]; rewrite Hx|by apply Hbest]. }
    specialize (IH _ Hnext).
    destruct (foldl (sooner srv) (sooner srv best x) l) as [f|].
    + destruct IH as (Hf & Hl & Hb). split; [done|]. split.
      * intros g [->|Hg]%elem_of_cons Hrej; [|by apply Hl].
        unfold sooner in Hb. destruct Hrej as [r Hr]. rewrite Hr in Hb.
        destruct best as [b0|]; [|by apply Hb].
        destruct (Nat.ltb_spec (settled_at srv x) (settled_at srv b0));
          [by apply Hb|].
        specialize (Hb b0 eq_refl). lia.
      * intros b ->. unfold sooner in Hb.
        destruct (rejection srv x) as [r|]; [|by apply Hb].
        destruct (Nat.ltb_spec (settled_at srv x) (settled_at srv b));
          [|by apply Hb].
        specialize (Hb x eq_refl). lia.
    + destruct IH as [Hs Hl]. unfold sooner in Hs.
      destruct (rejection srv x) as [r|] eqn:Hx.
      * destruct best as [b0|]; [|done].
        by destruct (settled_at srv x <? settled_at srv b0)%nat.
      * split; [done|]. by intros g [->|Hg]%elem_of_cons; [|apply Hl].
Qed.

Lemma first_rejected_spec srv :
  match first_rejected srv with
  | None => ∀ g, rejection srv g = None
  | Some f =>
      is_Some (rejection srv f)
      ∧ ∀ g, is_Some (rejection srv g) →
             (settled_at srv f <= settled_at srv g)%nat
  end.
Proof.
  assert (Hall : ∀ g, g ∈ files) by (intros []; unfold files; set_solver).
  pose proof (sooner_fold srv files None ltac:(done)) as H.
  fold (first_rejected srv) in H.
  destruct (first_rejected srv) as [f|].
  - destruct H as (Hf & Hl & _). split; [done|]. intros g. by apply Hl.
  - destruct H as [_ Hl]. intros g. by apply Hl.
Qed.

Lemma all_files_load_served srv :
  all_files_load srv = true ↔ is_Some (served srv).
Proof.
  unfold all_files_load, served.
  destruct (loaded (stops_geojson srv)); simpl; [|split; [done|by intros [? ?]]].
  destruct (loaded (routes_geojson srv)); simpl; [|split; [done|by intros [? ?]]].
  destruct (loaded (stop_to_routes_json srv)); simpl;
    [|split; [done|by intros [? ?]]].
  destruct (loaded (route_to_stops_json srv)); simpl;
    [|split; [done|by intros [? ?]]].
  destruct (loaded (timetable_json srv)); simpl; [|split; [done|by intros [? ?]]].
  destruct (loaded (metadata_json srv)); simpl; [|split; [done|by intros [? ?]]].
  split; [by eexists|done].
Qed.

(** A load into an empty cache either gets all six files, or rejects with
    the reason [Promise.all] reports and caches nothing. *)
Lemma loadTransitData_all_or_nothing srv :
  (∃ d, served srv = Some d ∧ loadTransitData srv None = (inr d, Some d))
  ∨ served srv = None
    ∧ ∃ file reason,
        loadTransitData srv None = (inl reason, None)
        ∧ first_rejected srv = Some file
        ∧ rejection srv file = Some reason.
Proof.
  assert (Hreason : (∃ g, is_Some (rejection srv g)) →
            ∀ in_array_order,
            ∃ file reason,
              default in_array_order (first_rejected srv ≫= rejection srv) = reason
              ∧ first_rejected srv = Some file
              ∧ rejection srv file = Some reason).
  { intros (g & Hg) e. pose proof (first_rejected_spec srv) as Hspec.
    destruct (first_rejected srv) as [f|].
    - destruct Hspec as [[reason Hr] _]. exists f, reason. simpl. by rewrite Hr.
    - rewrite Hspec in Hg. by destruct Hg. }
  unfold loadTransitData, served.
  pose proof (fetchJson_loaded "stops.geojson" (stops_geojson srv)) as H1.
  destruct (loaded (stops_geojson srv)) as [stops|];
    [rewrite H1; clear H1|].
  2:{ right. split; [done|].
      destruct (Hreason (ex_intro _ StopsFile H1)
                  match fetchJson "stops.geojson" (stops_geojson srv) with
                  | inl e => e | inr _ => OtherValue end)
        as (file & reason & Hd & Hf & Hr).
      exists file, reason. split; [|done].
      destruct H1 as [r H1]. destruct (fetchJson "stops.geojson" _); [|done].
      simpl in *. by rewrite Hd. }
  pose proof (fetchJson_loaded "routes.geojson" (routes_geojson srv)) as H2.
  destruct (loaded (routes_geojson srv)) as [routes|];
    [rewrite H2; clear H2|].
  2:{ right. split; [done|].
      destruct (Hreason (ex_intro _ RoutesFile H2)
                  match fetchJson "routes.geojson" (routes_geojson srv) with
                  | inl e => e | inr _ => OtherValue end)
        as (file & reason & Hd & Hf & Hr).
      exists file, reason. split; [|done].
      destruct H2 as [r H2]. destruct (fetchJson "routes.geojson" _); [|done].
      simpl in *. by rewrite Hd. }
  pose proof (fetchJson_loaded "stop_to_routes.json" (stop_to_routes_json srv)) as H3.
  destruct (loaded (stop_to_routes_json srv)) as [s2r|];
    [rewrite H3; clear H3|].
  2:{ right. split; [done|].
      destruct (Hreason (ex_intro _ StopToRoutesFile H3)
                  match fetchJson "stop_to_routes.json" (stop_to_routes_json srv) with
                  | inl e => e | inr _ => OtherValue end)
        as (file & reason & Hd & Hf & Hr).
      exists file, reason. split; [|done].
      destruct H3 as [r H3]. destruct (fetchJson "stop_to_routes.json" _); [|done].
      simpl in *. by rewrite Hd. }
  pose proof (fetchJson_loaded "route_to_stops.json" (route_to_stops_json srv)) as H4.
  destruct (loaded (route_to_stops_json srv)) as [r2s|];
    [rewrite H4; clear H4|].
  2:{ right. split; [done|].
      destruct (Hreason (ex_intro _ RouteToStopsFile H4)
                  match fetchJson "route_to_stops.json" (route_to_stops_json srv) with
                  | inl e => e | inr _ => OtherValue end)
        as (file & reason & Hd & Hf & Hr).
      exists file, reason. split; [|done].
      destruct H4 as [r H4]. destruct (fetchJson "route_to_stops.json" _); [|done].
      simpl in *. by rewrite Hd. }
  pose proof (fetchJson_loaded "timetable.json" (timetable_json srv)) as H5.
  destruct (loaded (timetable_json srv)) as [tt|];
    [rewrite H5; clear H5|].
  2:{ right. split; [done|].
      destruct (Hreason (ex_intro _ TimetableFile H5)
                  match fetchJson "timetable.json" (timetable_json srv) with
                  | inl e => e | inr _ => OtherValue end)
        as (file & reason & Hd & Hf & Hr).
      exists file, reason. split; [|done].
      destruct H5 as [r H5]. destruct (fetchJson "timetable.json" _); [|done].
      simpl in *. by rewrite Hd. }
  pose proof (fetchJson_loaded "metadata.json" (metadata_json srv)) as H6.
  destruct (loaded (metadata_json srv)) as [md|];
    [rewrite H6; clear H6|].
  2:{ right. split; [done|].
      destruct (Hreason (ex_intro _ MetadataFile H6)
                  match fetchJson "metadata.json" (metadata_json srv) with
                  | inl e => e | inr _ => OtherValue end)
        as (file & reason & Hd & Hf & Hr).
      exists file, reason. split; [|done].
      destruct H6 as [r H6]. destruct (fetchJson "metadata.json" _); [|done].
      simpl in *. by rewrite Hd. }
  left. by eexists.
Qed.

Lemma rejection_status_failure srv file reason :
  only_status_failures srv = true →
  rejection srv file = Some reason →
  ∃ message, reason = ErrorObject message
             ∧ String.prefix "Failed to fetch " message = true.
Proof.
  unfold only_status_failures. rewrite !andb_true_iff.
  intros (((((H1 & H2) & H3) & H4) & H5) & H6).
  destruct file; simpl; by apply fetchJson_status_failure.
Qed.

(** X5. Loading is all or nothing, and a failure is not cached.  A load
    into an empty cache fills it exactly when all six files load: each
    [fetch] resolves to an ok response whose body parses.  Otherwise it
    rejects with the reason of the file whose promise is the first to
    reject (a "Failed to fetch" error when files fail by their status
    only), leaves the cache empty ([isDataLoaded] stays false), and the
    next load fetches again, succeeding as soon as all six files load. *)
Theorem loadTransitData_failure_not_cached (srv later : Server) :
  all_files_load srv = false →
  all_files_load later = true →
  (∃ file reason,
      fst (loadTransitData srv None) = inl reason
      ∧ rejection srv file = Some reason
      ∧ (∀ other, is_Some (rejection srv other) →
                  (settled_at srv file <= settled_at srv other)%nat)
      ∧ (only_status_failures srv = true →
         ∃ message, reason = ErrorObject message
                    ∧ String.prefix "Failed to fetch " message = true))
  ∧ isDataLoaded (snd (loadTransitData srv None)) = false
  ∧ (∃ d, served later = Some d
          ∧ loadTransitData later (snd (loadTransitData srv None))
            = (inr d, Some d))
  ∧ (∀ srv', is_Some (snd (loadTransitData srv' None))
             ↔ all_files_load srv' = true).
Proof.
  intros Hbad Hgood.
  destruct (loadTransitData_all_or_nothing srv)
    as [(d & Hserved & _)|[_ (file & reason & Hload & Hfirst & Hrej)]].
  { assert (all_files_load srv = true); [|congruence].
    apply all_files_load_served. by rewrite Hserved. }
  destruct (loadTransitData_all_or_nothing later)
    as [(d & Hserved & Hlater)|[Hnone _]].
  2:{ apply all_files_load_served in Hgood. rewrite Hnone in Hgood.
      by destruct Hgood. }
  rewrite Hload. split; [|split; [done|split; [by exists d|]]].
  - exists file, reason. split; [done|]. split; [done|]. split.
    + pose proof (first_rejected_spec srv) as Hspec.
      rewrite Hfirst in Hspec. by apply Hspec.
    + intros Honly. by eapply rejection_status_failure.
  - intros srv'. rewrite all_files_load_served.
    destruct (loadTransitData_all_or_nothing srv')
      as [(d' & -> & ->)|[-> (f & r & -> & _)]]; simpl.
    + split; by eexists.
    + split; by intros [? ?].
Qed.

Lemma loadTransitData_failure_not_cached_witness :
  let down :=
    {| stops_geojson := Samples.response_ok (td_stops Samples.demo_data);
       routes_geojson :=
         inr {| ok := false; statusText := "Not Found";
                json := inl (ErrorObject "Unexpected token < in JSON") |};
       stop_to_routes_json := Samples.response_ok (stopToRoutes Samples.demo_data);
       route_to_stops_json := inl (ErrorObject "Failed to fetch");
       timetable_json := Samples.response_ok (timetable Samples.demo_data);
       metadata_json := Samples.response_ok (metadata Samples.demo_data);
       settled_at := fun file => match file with
                                 | RouteToStopsFile => 1%nat
                                 | _ => 2%nat
                                 end |} in
  ∃ d, served (Samples.serving Samples.demo_data) = Some d
       ∧ loadTransitData (Samples.serving Samples.demo_data)
           (snd (loadTransitData down None))
         = (inr d, Some d).
Proof.
  cbv zeta.
  match goal with
  | |- ∃ d, _ ∧ loadTransitData ?later (snd (loadTransitData ?srv None)) = _ =>
    apply (proj1 (proj2 (proj2
             (loadTransitData_failure_not_cached srv later eq_refl eq_refl))))
  end.
Defined.

(** Of two failing files, the one that settles first is reported,
    whatever its place in the array. *)
Example first_rejection_in_time :
  let down :=
    {| stops_geojson := Samples.response_ok (td_stops Samples.demo_data);
       routes_geojson :=
         inr {| ok := false; statusText := "Not Found";
                json := inl (ErrorObject "Unexpected token < in JSON") |};
       stop_to_routes_json := Samples.response_ok (stopToRoutes Samples.demo_data);
       route_to_stops_json := inl (ErrorObject "NetworkError");
       timetable_json :=
         inr {| ok := true; statusText := "OK";
                json := inl (ErrorObject "Unexpected end of JSON input") |};
       metadata_json := Samples.response_ok (metadata Samples.demo_data);
       settled_at := fun file => match file with
                                 | RouteToStopsFile => 1%nat
                                 | TimetableFile => 3%nat
                                 | _ => 2%nat
                                 end |} in
  loadTransitData down None = (inl (ErrorObject "NetworkError"), None).
Proof. reflexivity. Qed.

(** X6. From the first screen to the map: the page starts on the loading
    screen; once the provider's load has settled and its action is
    dispatched, it shows the map, with the loaded data in the state, when
    all six files loaded; otherwise the state has no data and the page
    shows the error screen with the message of the rejection, or with
    "Failed to load data" when the rejection is not an [Error].  An error
    with an empty message is not shown as an error: the page is then the
    main screen. *)
Theorem page_after_load (srv : Server) :
  let state := transitReducer initialState (fst (load_effect srv None)) in
  Page.HomePage initialState = Page.LoadingScreen
  ∧ ((∃ d, served srv = Some d
           ∧ data state = Some d
           ∧ Page.HomePage state = Page.MainScreen false false)
     ∨ all_files_load srv = false
       ∧ data state = None
       ∧ ∃ reason,
           fst (loadTransitData srv None) = inl reason
           ∧ Page.HomePage state
             = match reason with
               | ErrorObject message =>
                   if Js.truthy message then Page.ErrorScreen message
                   else Page.MainScreen false false
               | OtherValue => Page.ErrorScreen "Failed to load data"
               end)
  ∧ (∀ st message,
       Page.HomePage (transitReducer st (SET_ERROR message))
       = if Js.truthy message then Page.ErrorScreen message
         else Page.MainScreen
                (Js.truthy_opt (selectedStop (selection st))
                 || Js.truthy_opt (selectedRoute (selection st)))
                (negb (sidebarOpen st))).
Proof.
  cbv zeta. split; [done|]. split.
  - unfold load_effect.
    destruct (loadTransitData_all_or_nothing srv)
      as [(d & Hserved & ->)|[Hnone (file & reason & -> & _)]].
    + left. exists d. done.
    + right. split.
      { destruct (all_files_load srv) eqn:Hall; [|done].
        apply all_files_load_served in Hall. rewrite Hnone in Hall.
        by destruct Hall. }
      destruct reason as [message|]; simpl.
      * split; [done|]. eexists. split; [done|].
        unfold Page.HomePage. simpl. by destruct message.
      * split; [done|]. eexists. split; [done|]. done.
  - intros st message. unfold Page.HomePage. simpl.
    by destruct message.
Qed.

(** A body that is not JSON, served with status 200, ends on the error
    screen with the parser's message. *)
Example page_after_unparsable_body :
  let srv :=
    {| stops_geojson :=
         inr {| ok := true; statusText := "OK";
                json := inl (ErrorObject "Unexpected token < in JSON") |};
       routes_geojson := Samples.response_ok (td_routes Samples.demo_data);
       stop_to_routes_json := Samples.response_ok (stopToRoutes Samples.demo_data);
       route_to_stops_json := Samples.response_ok (routeToStops Samples.demo_data);
       timetable_json := Samples.response_ok (timetable Samples.demo_data);
       metadata_json := Samples.response_ok (metadata Samples.demo_data);
       settled_at := fun _ => 0%nat |} in
  Page.HomePage (transitReducer initialState (fst (load_effect srv None)))
  = Page.ErrorScreen "Unexpected token < in JSON".
Proof. reflexivity. Qed.

End Loading.

(* ===================================================================== *)
(** ** context/TransitContext.tsx: actions and filtered views *)
(* ===================================================================== *)

Section Views.
Import Types TransitContext Props.

Lemma isRouteVisible_true state routeId :
  isRouteVisible state routeId = true
  ↔ ((0 <? size (visibleRoutes state))%nat = true →
     routeId ∈ visibleRoutes state).
Proof.
  unfold isRouteVisible.
  destruct (size (visibleRoutes state)) as [|n]; simpl.
  - split; [by intros _ ?|done].
  - rewrite bool_decide_eq_true. split; [by intros ? _|auto].
Qed.

Lemma list_to_set_empty_iff (l : list string) :
  (list_to_set l : gset string) = ∅ ↔ l = [].
Proof.
  split; [|by intros ->].
  destruct l as [|x l]; [done|]. intros Heq.
  assert (Hx : x ∈ (∅ : gset string)).
  { rewrite <- Heq. apply elem_of_list_to_set. by left. }
  by apply not_elem_of_empty in Hx.
Qed.

Lemma size_pos_iff (X : gset string) :
  (0 <? size X)%nat = true ↔ X ≠ ∅.
Proof.
  rewrite Nat.ltb_lt. split.
  - intros Hpos ->. rewrite size_empty in Hpos. lia.
  - intros Hne. destruct (size X) eqn:E; [|lia].
    apply size_empty_inv, leibniz_equiv in E. done.
Qed.

(** X7. The routes the map draws are the routes the list calls visible:
    a route feature is in [getFilteredRoutes] exactly when the data is
    loaded, the feature is among its routes, [filters[type_name]] is
    truthy, and [isRouteVisible] holds of its id; the order of the data
    is kept.  For a type name other than metro, rail and bus the filters
    play no role: the route is never drawn, unless the type name is one
    that every object inherits a member for (constructor, toString, ...),
    in which case it is drawn whenever it is visible, whatever the
    filters. *)
Theorem getFilteredRoutes_visible (state : TransitState) (route : RouteFeature) :
  (route ∈ getFilteredRoutes state
   ↔ ∃ d, data state = Some d
          ∧ route ∈ features (td_routes d)
          ∧ filter_get_str (filters state) (type_name (properties route)) = true
          ∧ isRouteVisible state (route_id (properties route)) = true)
  ∧ (∀ d, data state = Some d →
          sublist (getFilteredRoutes state) (features (td_routes d)))
  ∧ (type_name (properties route) ≠ "metro" →
     type_name (properties route) ≠ "rail" →
     type_name (properties route) ≠ "bus" →
     if Js.inherited (type_name (properties route))
     then ∀ d, data state = Some d → route ∈ features (td_routes d) →
               isRouteVisible state (route_id (properties route)) = true →
               route ∈ getFilteredRoutes state
     else route ∉ getFilteredRoutes state).
Proof.
  assert (Hiff : route ∈ getFilteredRoutes state
    ↔ ∃ d, data state = Some d
           ∧ route ∈ features (td_routes d)
           ∧ filter_get_str (filters state) (type_name (properties route)) = true
           ∧ isRouteVisible state (route_id (properties route)) = true).
  { unfold getFilteredRoutes. destruct (data state) as [d|].
    - rewrite list_elem_of_filter. setoid_rewrite isRouteVisible_true. split.
      + intros [[Hf Hv] Hin]. eauto.
      + intros (d' & [= <-] & Hin & Hf & Hv). done.
    - split; [by intros ?%elem_of_nil|by intros (d & ? & _)]. }
  split; [exact Hiff|]. split.
  - intros d Hd. unfold getFilteredRoutes. rewrite Hd. apply sublist_filter.
  - intros H1 H2 H3.
    assert (Hget : filter_get_str (filters state) (type_name (properties route))
                   = Js.inherited (type_name (properties route))).
    { unfold filter_get_str.
      apply String.eqb_neq in H1, H2, H3. by rewrite H1, H2, H3. }
    destruct (Js.inherited (type_name (properties route))) eqn:Hinh.
    + intros d Hd Hin Hv. apply Hiff. exists d. by rewrite Hget.
    + rewrite Hiff. intros (d & _ & _ & Hf & _). congruence.
Qed.

(** A route typed "constructor" is drawn with every filter off. *)
Example getFilteredRoutes_inherited_type :
  let odd := Samples.demo_route "HMRL_X" "Odd" "constructor" "#000000" [] in
  let d := {| td_stops := td_stops Samples.demo_data;
              td_routes := {| features := [odd] |};
              stopToRoutes := ∅; routeToStops := ∅; timetable := ∅;
              metadata := metadata Samples.demo_data |} in
  getFilteredRoutes
    (transitReducer
       (transitReducer initialState (SET_DATA d))
       (SET_FILTERS {| f_metro := false; f_rail := false; f_bus := false |}))
  = [odd].
Proof. by vm_compute. Qed.

Lemma reachable_exclusive state : reachable state → selection_exclusive state.
Proof.
  induction 1 as [|state action _ IH]; [by left|].
  by apply reducer_preserves_exclusive.
Qed.

Lemma elem_of_relevantStopIds d (vis : gset string) sel x :
  x ∈ relevantStopIds d vis sel
  ↔ x = sel ∨ ∃ r, r ∈ vis ∧ x ∈ map rs_stop_id (routeStops_of d r).
Proof.
  unfold relevantStopIds.
  assert (Hinner : ∀ (l : list RouteStopInfo) (acc : gset string),
             x ∈ foldl (fun acc s => {[ rs_stop_id s ]} ∪ acc) acc l
             ↔ x ∈ acc ∨ x ∈ map rs_stop_id l).
  { induction l as [|s l IH]; intros acc; simpl.
    - rewrite elem_of_nil. tauto.
    - rewrite IH, elem_of_union, elem_of_singleton, elem_of_cons. tauto. }
  assert (Houter : ∀ (rs : list string) (acc : gset string),
             x ∈ foldl (fun acc routeId =>
                          foldl (fun acc s => {[ rs_stop_id s ]} ∪ acc) acc
                                (routeStops_of d routeId)) acc rs
             ↔ x ∈ acc ∨ ∃ r, r ∈ rs ∧ x ∈ map rs_stop_id (routeStops_of d r)).
  { induction rs as [|r rs IH]; intros acc; simpl.
    - split; [by left|]. intros [Hacc|(r & Hr%elem_of_nil & _)]; done.
    - rewrite IH, Hinner. split.
      + intros [[Hacc|Hr]|(r' & Hr' & Hx)]; [by left|right|right].
        * exists r. split; [by left|done].
        * exists r'. split; [by right|done].
      + intros [Hacc|(r' & [->|Hr']%elem_of_cons & Hx)].
        * left. by left.
        * left. by right.
        * right. eauto. }
  rewrite Houter, elem_of_singleton.
  by setoid_rewrite elem_of_elements.
Qed.

Lemma not_an_array_iff {T} (o : gmap string (list T)) key :
  Js.not_an_array o key = true ↔ Js.get o key = Js.Inherited.
Proof. unfold Js.not_an_array. by destruct (Js.get o key). Qed.

(** Where the lookup is an array, it is the own entry or the empty
    array. *)
Lemma get_array {T} (o : gmap string (list T)) key :
  Js.not_an_array o key = false →
  default [] (o !! key)
  = match Js.get o key with Js.Own l => l | _ => [] end.
Proof.
  unfold Js.not_an_array, Js.get.
  destruct (o !! key); [done|]. by destruct (Js.inherited key).
Qed.

(** X8. The selected stop stays on the map: in every reachable state,
    if the selected stop is a stop of the loaded data and the filter of
    its type is on, [getFilteredStops] returns it, provided it returns.
    It throws exactly when the selected id is not empty and some visible
    route has, in the route->stops index, no entry of its own but a
    member inherited from [Object.prototype]. *)
Theorem selected_stop_is_shown
  (state : TransitState) (d : TransitData) (stop : StopFeature) :
  reachable state →
  data state = Some d →
  stop ∈ features (td_stops d) →
  selectedStop (selection state) = Some (stop_id (stop_properties stop)) →
  filter_get (filters state) (transit_type (stop_properties stop)) = true →
  (getFilteredStops_throws state = false →
   ∃ shown, getFilteredStops_call state = Some shown ∧ stop ∈ shown)
  ∧ (getFilteredStops_call state = None
     ↔ Js.truthy (stop_id (stop_properties stop)) = true
       ∧ ∃ routeId, routeId ∈ visibleRoutes state
                    ∧ Js.get (routeToStops d) routeId = Js.Inherited).
Proof.
  intros Hreach Hdata Hin Hsel Hfilter.
  destruct (reachable_exclusive state Hreach) as [Hnone|Hroute];
    [congruence|].
  split.
  - intros Hreturns. exists (getFilteredStops state).
    unfold getFilteredStops_call. rewrite Hreturns. split; [done|].
    unfold getFilteredStops. rewrite Hdata, Hroute, Hsel. simpl.
    destruct (Js.truthy (stop_id (stop_properties stop))
              && (0 <? size (visibleRoutes state))%nat); simpl.
    + apply list_elem_of_filter. split; [|done]. split; [done|].
      apply elem_of_relevantStopIds. by left.
    + apply list_elem_of_filter. done.
  - unfold getFilteredStops_call, getFilteredStops_throws.
    rewrite Hdata, Hroute, Hsel. cbn -[Nat.ltb size].
    destruct (Js.truthy (stop_id (stop_properties stop))); cbn -[Nat.ltb size].
    + destruct (0 <? size (visibleRoutes state))%nat eqn:Hsize.
      * destruct (existsb (Js.not_an_array (routeToStops d))
                          (elements (visibleRoutes state))) eqn:Hex.
        -- split; [intros _|done]. split; [done|].
           apply existsb_exists in Hex as (routeId & Hr & Hbad).
           exists routeId. split.
           ++ by apply elem_of_elements, list_elem_of_In.
           ++ by apply not_an_array_iff.
        -- split; [done|]. intros (_ & routeId & Hr & Hbad).
           assert (existsb (Js.not_an_array (routeToStops d))
                           (elements (visibleRoutes state)) = true); [|congruence].
           apply existsb_exists. exists routeId. split.
           ++ by apply list_elem_of_In, elem_of_elements.
           ++ by apply not_an_array_iff.
      * split; [done|]. intros (_ & routeId & Hr & _).
        apply Nat.ltb_ge in Hsize.
        assert (Hempty : visibleRoutes state = ∅).
        { apply leibniz_equiv, size_empty_inv. lia. }
        rewrite Hempty in Hr. by apply not_elem_of_empty in Hr.
    + split; [done|by intros [? _]].
Qed.

Lemma selected_stop_is_shown_witness :
  ∃ shown,
    getFilteredStops_call
      (transitReducer Samples.demo_state (SELECT_STOP (Some "HMRL_MGBS")))
    = Some shown
    ∧ Samples.demo_stop "HMRL_MGBS" "MGBS" metro ["HMRL_RED"; "HMRL_GREEN"]
      ∈ shown.
Proof.
  refine (proj1 (selected_stop_is_shown _ Samples.demo_data _ _ _ _ _ _) _).
  - do 2 constructor. constructor.
  - reflexivity.
  - by left.
  - reflexivity.
  - reflexivity.
  - by vm_compute.
Defined.

(** With the stop selected, showing a route named "constructor" makes
    the next [getFilteredStops] throw. *)
Example getFilteredStops_throws_on_inherited_route :
  dispatch (transitReducer Samples.demo_state (SELECT_STOP (Some "HMRL_MGBS")))
    (TOGGLE_ROUTE_VISIBILITY "constructor")
  = Some (transitReducer
            (transitReducer Samples.demo_state (SELECT_STOP (Some "HMRL_MGBS")))
            (TOGGLE_ROUTE_VISIBILITY "constructor"))
  ∧ getFilteredStops_call
      (transitReducer
         (transitReducer Samples.demo_state (SELECT_STOP (Some "HMRL_MGBS")))
         (TOGGLE_ROUTE_VISIBILITY "constructor")) = None.
Proof. split; by vm_compute. Qed.

Lemma filter_type_enabled (f : FilterState) (P : StopFeature → Prop)
  `{∀ x, Decision (P x)} (t : TransitType) (l : list StopFeature) :
  filter (fun s => transit_type (stop_properties s) = t)
    (filter (fun s => filter_get f (transit_type (stop_properties s)) = true
                      ∧ P s) l)
  = if filter_get f t
    then filter (fun s => transit_type (stop_properties s) = t) (filter P l)
    else [].
Proof.
  rewrite !list_filter_filter.
  destruct (filter_get f t) eqn:Ht.
  - apply list_filter_iff. intros s. split.
    + by intros (? & ? & ?).
    + intros [Hs HP]. split; [done|]. split; [|done]. by rewrite Hs.
  - induction l as [|s l IH]; [done|].
    rewrite filter_cons, IH. case_decide as Hs; [|done].
    destruct Hs as (Hs & Hf & _). rewrite Hs in Hf. congruence.
Qed.

Lemma filter_type_enabled_only (f : FilterState) (t : TransitType)
  (l : list StopFeature) :
  filter (fun s => transit_type (stop_properties s) = t)
    (filter (fun s => filter_get f (transit_type (stop_properties s)) = true) l)
  = if filter_get f t
    then filter (fun s => transit_type (stop_properties s) = t) l
    else [].
Proof.
  rewrite list_filter_filter.
  destruct (filter_get f t) eqn:Ht.
  - apply list_filter_iff. intros s. split.
    + by intros [? ?].
    + intros Hs. split; [done|]. by rewrite Hs.
  - induction l as [|s l IH]; [done|].
    rewrite filter_cons, IH. case_decide as Hs; [|done].
    destruct Hs as [Hs Hf]. rewrite Hs in Hf. congruence.
Qed.

Lemma drawn_stops_markers (l : list StopFeature) (visible : bool)
  (sel : StopFeature → bool) (col : StopFeature → option string) :
  StopLayer.drawn_stops
    (map (fun stop => (stop, StopLayer.StopMarker stop (sel stop) visible (col stop))) l)
  = if visible then l else [].
Proof.
  unfold StopLayer.drawn_stops.
  induction l as [|stop l IH]; [by destruct visible|].
  change (map ?f (stop :: l)) with (f stop :: map f l).
  change (omap ?f (?p :: ?ps)) with
    (match f p with Some y => y :: omap f ps | None => omap f ps end).
  rewrite IH. unfold StopLayer.StopMarker. simpl.
  destruct (point_coordinates (stop_geometry stop)) as [lng lat].
  by destruct visible.
Qed.

Lemma type_groups_permutation (l : list StopFeature) :
  (filter (fun s => transit_type (stop_properties s) = metro) l
   ++ filter (fun s => transit_type (stop_properties s) = rail) l
   ++ filter (fun s => transit_type (stop_properties s) = bus) l)%list ≡ₚ l.
Proof.
  induction l as [|s l IH]; [done|].
  rewrite !filter_cons.
  destruct (transit_type (stop_properties s)) eqn:Hs;
    repeat case_decide; try done.
  - simpl. by constructor.
  - rewrite <- app_comm_cons, <- Permutation_middle. by constructor.
  - rewrite (assoc app), <- Permutation_middle, <- (assoc app). by constructor.
Qed.

(** X9. The stop layer draws exactly the stops [getFilteredStops]
    returns: for each transit type, the stops whose marker is not null
    are the stops of that type in [getFilteredStops], in the same order;
    over the three types they are the same stops. *)
Theorem StopLayer_draws_filtered_stops (state : TransitState) :
  (∀ t, StopLayer.drawn_stops (StopLayer.markers_of_type state t)
        = filter (fun s => transit_type (stop_properties s) = t)
                 (getFilteredStops state))
  ∧ StopLayer.drawn_stops (StopLayer.StopLayer state) ≡ₚ getFilteredStops state.
Proof.
  assert (Hgroup : ∀ t, StopLayer.drawn_stops (StopLayer.markers_of_type state t)
                       = filter (fun s => transit_type (stop_properties s) = t)
                                (getFilteredStops state)).
  { intros t. unfold StopLayer.markers_of_type.
    rewrite (drawn_stops_markers _ _ (StopLayer.isSelectedStop state)
               (fun stop => match t with
                            | metro => StopLayer.getMetroStopColor state stop
                            | _ => None
                            end)).
    unfold StopLayer.stops_of_type, StopLayer.allStops, getFilteredStops.
    destruct (data state) as [d|]; [|by destruct (filter_get (filters state) t)].
    destruct (Js.truthy_opt (selectedRoute (selection state))).
    { by rewrite filter_type_enabled. }
    destruct (Js.truthy_opt (selectedStop (selection state))
              && (0 <? size (visibleRoutes state))%nat).
    { by rewrite filter_type_enabled. }
    by rewrite filter_type_enabled_only. }
  split; [done|].
  unfold StopLayer.StopLayer, StopLayer.drawn_stops.
  rewrite !omap_app.
  fold (StopLayer.drawn_stops (StopLayer.markers_of_type state metro)).
  fold (StopLayer.drawn_stops (StopLayer.markers_of_type state rail)).
  fold (StopLayer.drawn_stops (StopLayer.markers_of_type state bus)).
  rewrite !Hgroup. apply type_groups_permutation.
Qed.

(** X10. What selecting a stop shows: SELECT_STOP with a non-empty id
    on loaded data gives a state whose highlighted routes are the routes
    the stop->routes index lists for the stop, none when it has neither
    an entry nor an inherited member for the id, and in which a route is
    visible exactly when it is one of them, or when there are none.  For
    an id that the index has no entry for but [Object.prototype] has a
    member for (constructor, toString, ...), the reducer throws. *)
Theorem select_stop_visibility
  (state : TransitState) (d : TransitData) (id routeId : string) :
  data state = Some d →
  Js.truthy id = true →
  match Js.get (stopToRoutes d) id with
  | Js.Inherited => dispatch state (SELECT_STOP (Some id)) = None
  | found =>
      let listed := match found with Js.Own l => l | _ => [] end in
      ∃ state',
        dispatch state (SELECT_STOP (Some id)) = Some state'
        ∧ highlightedRoutes (selection state') = listed
        ∧ (isRouteVisible state' routeId = true
           ↔ listed = [] ∨ routeId ∈ listed)
  end.
Proof.
  intros Hdata Hid.
  assert (Hreturns : Js.not_an_array (stopToRoutes d) id = false →
            ∃ state',
              dispatch state (SELECT_STOP (Some id)) = Some state'
              ∧ highlightedRoutes (selection state')
                = default [] (stopToRoutes d !! id)
              ∧ (isRouteVisible state' routeId = true
                 ↔ default [] (stopToRoutes d !! id) = []
                   ∨ routeId ∈ default [] (stopToRoutes d !! id))).
  { intros Harr. eexists. split.
    { unfold dispatch, transitReducer_throws. by rewrite Hdata, Hid, Harr. }
    destruct id as [|c id]; [done|].
    rewrite isRouteVisible_true.
    unfold transitReducer, stopRoutes_of. simpl. rewrite Hdata.
    split; [done|].
    rewrite size_pos_iff, list_to_set_empty_iff, elem_of_list_to_set.
    destruct (default [] (stopToRoutes d !! String c id)) as [|x l].
    - split; [by left|]. by intros _ ?.
    - split; [intros Hv; right; by apply Hv|].
      intros [?|Hin] _; done. }
  pose proof (get_array (stopToRoutes d) id) as Harray.
  unfold Js.not_an_array in Hreturns, Harray.
  destruct (Js.get (stopToRoutes d) id) as [l| |] eqn:Hget.
  - cbv zeta. destruct (Hreturns eq_refl) as (state' & Hd & Hh & Hv).
    rewrite (Harray eq_refl) in Hh, Hv. eauto.
  - unfold dispatch, transitReducer_throws, Js.not_an_array.
    by rewrite Hdata, Hid, Hget.
  - cbv zeta. destruct (Hreturns eq_refl) as (state' & Hd & Hh & Hv).
    rewrite (Harray eq_refl) in Hh, Hv. eauto.
Qed.

Lemma select_stop_visibility_witness :
  ∃ state',
    dispatch Samples.demo_state (SELECT_STOP (Some "HMRL_LBN")) = Some state'
    ∧ highlightedRoutes (selection state') = ["HMRL_RED"]
    ∧ (isRouteVisible state' "HMRL_GREEN" = true
       ↔ ["HMRL_RED"] = [] ∨ "HMRL_GREEN" ∈ ["HMRL_RED"]).
Proof.
  exact (select_stop_visibility Samples.demo_state Samples.demo_data
           "HMRL_LBN" "HMRL_GREEN" eq_refl eq_refl).
Defined.

(** Selecting a stop whose id is "constructor" throws on data that has
    no entry for it, and does not once the data has one. *)
Example select_stop_constructor :
  dispatch Samples.demo_state (SELECT_STOP (Some "constructor")) = None
  ∧ is_Some
      (dispatch
         (transitReducer initialState
            (SET_DATA {| td_stops := td_stops Samples.demo_data;
                         td_routes := td_routes Samples.demo_data;
                         stopToRoutes := {[ "constructor" := ["HMRL_RED"] ]};
                         routeToStops := ∅; timetable := ∅;
                         metadata := metadata Samples.demo_data |}))
         (SELECT_STOP (Some "constructor"))).
Proof. split; [by vm_compute|]. by eexists. Qed.

(** X11. What selecting a route shows: SELECT_ROUTE with a non-empty id
    on loaded data always gives a state, in which only that route is
    visible and the routes drawn are the features with that id for which
    [filters[type_name]] is truthy.  The stops drawn are the stops whose
    type filter is on and that the route->stops index lists for the
    route, none when it has neither an entry nor an inherited member for
    the id; for an id that the index has no entry for but
    [Object.prototype] has a member for, [getFilteredStops] throws. *)
Theorem select_route_views
  (state : TransitState) (d : TransitData) (id : string) :
  data state = Some d →
  Js.truthy id = true →
  let state' := transitReducer state (SELECT_ROUTE (Some id)) in
  dispatch state (SELECT_ROUTE (Some id)) = Some state'
  ∧ (∀ routeId, isRouteVisible state' routeId = true ↔ routeId = id)
  ∧ (∀ route, route ∈ getFilteredRoutes state'
        ↔ route ∈ features (td_routes d)
          ∧ filter_get_str (filters state) (type_name (properties route)) = true
          ∧ route_id (properties route) = id)
  ∧ match Js.get (routeToStops d) id with
    | Js.Inherited => getFilteredStops_call state' = None
    | found =>
        ∃ shown,
          getFilteredStops_call state' = Some shown
          ∧ ∀ stop, stop ∈ shown
              ↔ stop ∈ features (td_stops d)
                ∧ filter_get (filters state)
                    (transit_type (stop_properties stop)) = true
                ∧ stop_id (stop_properties stop)
                  ∈ map rs_stop_id
                        (match found with Js.Own l => l | _ => [] end)
    end.
Proof.
  intros Hdata Hid. cbv zeta.
  assert (Hsize : (0 <? size ({[ id ]} : gset string))%nat = true).
  { apply size_pos_iff. intros Heq.
    assert (Hin : id ∈ (∅ : gset string))
      by (rewrite <- Heq; by apply elem_of_singleton).
    by apply not_elem_of_empty in Hin. }
  pose proof (get_array (routeToStops d) id) as Harray.
  assert (Hthrows : getFilteredStops_throws
                      (transitReducer state (SELECT_ROUTE (Some id)))
                    = Js.not_an_array (routeToStops d) id).
  { unfold getFilteredStops_throws. destruct id as [|c id]; [done|].
    simpl. by rewrite Hdata. }
  assert (Hshown : ∀ stop,
            stop ∈ getFilteredStops (transitReducer state (SELECT_ROUTE (Some id)))
            ↔ stop ∈ features (td_stops d)
              ∧ filter_get (filters state)
                  (transit_type (stop_properties stop)) = true
              ∧ stop_id (stop_properties stop)
                ∈ map rs_stop_id (default [] (routeToStops d !! id))).
  { intros stop. destruct id as [|c id]; [done|].
    unfold getFilteredStops. simpl. rewrite Hdata.
    rewrite list_elem_of_filter, elem_of_list_to_set.
    unfold routeStops_of. tauto. }
  split; [done|].
  destruct id as [|c id]; [done|].
  split; [|split].
  - intros routeId. rewrite isRouteVisible_true. cbn -[Nat.ltb size].
    rewrite Hsize, elem_of_singleton. split; auto.
  - intros route. unfold getFilteredRoutes. cbn -[Nat.ltb size]. rewrite Hdata.
    rewrite list_elem_of_filter, Hsize, elem_of_singleton. split.
    + intros [[Hf Hv] Hin]. auto.
    + intros (Hin & Hf & Hr). auto.
  - unfold getFilteredStops_call. rewrite Hthrows.
    unfold Js.not_an_array in *.
    destruct (Js.get (routeToStops d) (String c id)) as [l| |] eqn:Hget.
    + eexists. split; [done|]. intros stop.
      rewrite Hshown, (Harray eq_refl). done.
    + done.
    + eexists. split; [done|]. intros stop.
      rewrite Hshown, (Harray eq_refl). done.
Qed.

Lemma select_route_views_witness :
  isRouteVisible
    (transitReducer Samples.demo_state (SELECT_ROUTE (Some "HMRL_RED")))
    "HMRL_RED" = true.
Proof.
  exact (proj2 (proj1 (proj2 (select_route_views Samples.demo_state
                                Samples.demo_data "HMRL_RED" eq_refl eq_refl))
                 "HMRL_RED") eq_refl).
Defined.

Lemma toggle_off (vis : gset string) r : r ∈ vis → {[ r ]} ∪ (vis ∖ {[ r ]}) = vis.
Proof.
  intros Hr. apply set_eq. intros x.
  rewrite elem_of_union, elem_of_difference, elem_of_singleton.
  destruct (decide (x = r)) as [->|Hne]; [tauto|]. tauto.
Qed.

Lemma toggle_on (vis : gset string) r : r ∉ vis → ({[ r ]} ∪ vis) ∖ {[ r ]} = vis.
Proof.
  intros Hr. apply set_eq. intros x.
  rewrite elem_of_difference, elem_of_union, elem_of_singleton.
  destruct (decide (x = r)) as [->|Hne]; [tauto|]. tauto.
Qed.

(** X12. Toggling the visibility of a route flips its membership in
    [visibleRoutes] and leaves the membership of every other route as it
    was; toggling the only member empties the set, after which every
    route is visible again. *)
Theorem toggle_route_visibility_flips (state : TransitState) (r : string) :
  let state' := transitReducer state (TOGGLE_ROUTE_VISIBILITY r) in
  (r ∈ visibleRoutes state' ↔ r ∉ visibleRoutes state)
  ∧ (∀ other, other ≠ r →
       (other ∈ visibleRoutes state' ↔ other ∈ visibleRoutes state))
  ∧ (visibleRoutes state = {[ r ]} →
       ∀ routeId, isRouteVisible state' routeId = true).
Proof.
  cbv zeta. simpl. split; [|split].
  - case_bool_decide as Hr.
    + rewrite elem_of_difference, elem_of_singleton. tauto.
    + rewrite elem_of_union, elem_of_singleton. tauto.
  - intros other Hne. case_bool_decide as Hr.
    + rewrite elem_of_difference, elem_of_singleton. tauto.
    + rewrite elem_of_union, elem_of_singleton. tauto.
  - intros Hvis routeId. unfold isRouteVisible. simpl. rewrite Hvis.
    rewrite bool_decide_eq_true_2 by by apply elem_of_singleton.
    assert (Hempty : ({[ r ]} : gset string) ∖ {[ r ]} = ∅).
    { apply set_eq. intros x.
      rewrite elem_of_difference, elem_of_singleton. split; [tauto|].
      by intros ?%not_elem_of_empty. }
    by rewrite Hempty, size_empty.
Qed.

Lemma toggle_route_visibility_flips_witness :
  isRouteVisible
    (transitReducer
       (transitReducer Samples.demo_state (SELECT_ROUTE (Some "HMRL_RED")))
       (TOGGLE_ROUTE_VISIBILITY "HMRL_RED"))
    "HMRL_GREEN" = true.
Proof.
  exact (proj2 (proj2 (toggle_route_visibility_flips
                         (transitReducer Samples.demo_state
                            (SELECT_ROUTE (Some "HMRL_RED")))
                         "HMRL_RED")) eq_refl "HMRL_GREEN").
Defined.

(** X13. The three toggles undo themselves: dispatching TOGGLE_FILTER for
    the same type, TOGGLE_ROUTE_VISIBILITY for the same route, or
    TOGGLE_SIDEBAR twice in a row gives the state back. *)
Theorem toggles_are_involutions (state : TransitState) :
  (∀ t, transitReducer (transitReducer state (TOGGLE_FILTER t)) (TOGGLE_FILTER t)
        = state)
  ∧ (∀ r, transitReducer (transitReducer state (TOGGLE_ROUTE_VISIBILITY r))
            (TOGGLE_ROUTE_VISIBILITY r) = state)
  ∧ transitReducer (transitReducer state TOGGLE_SIDEBAR) TOGGLE_SIDEBAR = state.
Proof.
  destruct state as [d l e f sel open vis]. split; [|split].
  - intros t. unfold transitReducer. simpl. f_equal.
    destruct f as [m r b], t; simpl; by rewrite negb_involutive.
  - intros r. unfold transitReducer.
    cbn [visibleRoutes data loading error filters selection sidebarOpen].
    f_equal. destruct (decide (r ∈ vis)) as [Hr|Hr].
    + rewrite !(bool_decide_eq_true_2 (r ∈ vis)) by done.
      rewrite bool_decide_eq_false_2
        by (rewrite elem_of_difference, elem_of_singleton; tauto).
      by apply toggle_off.
    + rewrite !(bool_decide_eq_false_2 (r ∈ vis)) by done.
      rewrite bool_decide_eq_true_2
        by (rewrite elem_of_union, elem_of_singleton; tauto).
      by apply toggle_on.
  - unfold transitReducer. simpl. by rewrite negb_involutive.
Qed.

Lemma reducer_data state action :
  data (transitReducer state action)
  = match action with
    | SET_DATA d => Some d
    | _ => data state
    end.
Proof. by destruct action. Qed.

(** X14. Loaded data is never unloaded: after any sequence of actions
    the data in the state is the payload of the last SET_DATA of the
    sequence, or, when the sequence has none, the data the state had. *)
Theorem data_is_last_SET_DATA (actions : list TransitAction) (state : TransitState) :
  data (fold_left transitReducer actions state)
  = match last_SET_DATA actions with
    | Some d => Some d
    | None => data state
    end.
Proof.
  revert state. induction actions as [|a actions IH]; intros state; [done|].
  simpl. rewrite IH, reducer_data.
  destruct (last_SET_DATA actions); [done|]. by destruct a.
Qed.

End Views.

(* ===================================================================== *)
(** ** Map layers and sidebar: what is drawn, and in which order *)
(* ===================================================================== *)

Section Layers.
Import Types TransitContext Props.

Lemma sort_highlighted_last (highlighted : gset string) (l : list RouteFeature) :
  Js.sort (RouteLayer.highlight_cmp highlighted) l
  = (filter (fun r => route_id (properties r) ∉ highlighted) l
     ++ filter (fun r => route_id (properties r) ∈ highlighted) l)%list.
Proof.
  unfold Js.sort. induction l as [|x l IH]; [done|].
  simpl foldr. rewrite IH, !filter_cons.
  destruct (decide (route_id (properties x) ∈ highlighted)) as [Hx|Hx].
  - rewrite decide_False by tauto.
    rewrite sort_insert_pass.
    + f_equal. apply sort_insert_here.
      intros y [Hy _]%list_elem_of_filter. unfold RouteLayer.highlight_cmp.
      rewrite !bool_decide_eq_true_2 by done. done.
    + intros y [Hy _]%list_elem_of_filter. unfold RouteLayer.highlight_cmp.
      rewrite bool_decide_eq_true_2, bool_decide_eq_false_2 by done. done.
  - rewrite decide_True by done.
    apply sort_insert_here. intros y _. unfold RouteLayer.highlight_cmp.
    rewrite (bool_decide_eq_false_2 _ Hx). simpl.
    by destruct (bool_decide (route_id (properties y) ∈ highlighted)).
Qed.

(** X15. Highlighted routes are drawn on top: the route layer first draws
    the filtered routes that are not highlighted, in normal style, then
    the highlighted ones, in highlighted style, each group in the order
    of [getFilteredRoutes]. *)
Theorem RouteLayer_draws_highlighted_last (state : TransitState) :
  let hl := highlightedRoutes (selection state) in
  RouteLayer.RouteLayer state
  = (map (fun r => RouteLayer.RoutePolyline r false)
         (filter (fun r => route_id (properties r) ∉ hl) (getFilteredRoutes state))
     ++ map (fun r => RouteLayer.RoutePolyline r true)
            (filter (fun r => route_id (properties r) ∈ hl)
                    (getFilteredRoutes state)))%list.
Proof.
  cbv zeta. unfold RouteLayer.RouteLayer, RouteLayer.sortedRoutes.
  rewrite sort_highlighted_last.
  set (hl := highlightedRoutes (selection state)).
  rewrite (list_filter_iff (fun r => route_id (properties r) ∉ list_to_set hl)
             (fun r => route_id (properties r) ∉ hl))
    by (intros r; by rewrite elem_of_list_to_set).
  rewrite (list_filter_iff (fun r => route_id (properties r) ∈ list_to_set hl)
             (fun r => route_id (properties r) ∈ hl))
    by (intros r; by rewrite elem_of_list_to_set).
  rewrite map_app. f_equal.
  - apply map_ext_in. intros r [Hr _]%list_elem_of_In%list_elem_of_filter.
    by rewrite bool_decide_eq_false_2.
  - apply map_ext_in. intros r [Hr _]%list_elem_of_In%list_elem_of_filter.
    by rewrite bool_decide_eq_true_2.
Qed.

(** X16. Highlighting changes the stroke only: a route is drawn
    highlighted exactly when it is drawn at all, with the same
    positions, colour, dash pattern, click target and tooltip; the
    highlighted line is 2 wider and fully opaque, where the normal line is
    at least 2 wide and less than fully opaque. *)
Theorem RoutePolyline_highlight (route : RouteFeature) :
  match RouteLayer.RoutePolyline route false, RouteLayer.RoutePolyline route true with
  | Some normal, Some high =>
      RouteLayer.positions high = RouteLayer.positions normal
      ∧ RouteLayer.po_color (RouteLayer.pathOptions high)
        = RouteLayer.po_color (RouteLayer.pathOptions normal)
      ∧ RouteLayer.po_dashArray (RouteLayer.pathOptions high)
        = RouteLayer.po_dashArray (RouteLayer.pathOptions normal)
      ∧ RouteLayer.click_route_id high = RouteLayer.click_route_id normal
      ∧ RouteLayer.tooltip_icon high = RouteLayer.tooltip_icon normal
      ∧ RouteLayer.tooltip_name high = RouteLayer.tooltip_name normal
      ∧ RouteLayer.po_weight (RouteLayer.pathOptions high)
        = RouteLayer.po_weight (RouteLayer.pathOptions normal) + 2
      ∧ 2 <= RouteLayer.po_weight (RouteLayer.pathOptions normal)
      ∧ RouteLayer.po_opacity (RouteLayer.pathOptions high) = 1%Q
      ∧ (RouteLayer.po_opacity (RouteLayer.pathOptions normal) < 1)%Q
  | None, None => True
  | _, _ => False
  end.
Proof.
  unfold RouteLayer.RoutePolyline.
  destruct (geometry route) as [g|]; [|done].
  destruct (coordinates g) as [coords|]; [|done].
  destruct (Z.of_nat (length coords) <? 2); [done|].
  simpl. unfold Utils.getRouteLineOptions.
  repeat split;
    destruct (String.eqb (type_name (properties route)) "metro");
    try destruct (String.eqb (type_name (properties route)) "rail");
    try destruct (String.eqb (type_name (properties route)) "bus");
    simpl; done.
Qed.

(** X17. The sidebar shows one thing at a time: in every reachable state
    it shows at most one of the stop panel and the route panel, headed
    "Selected Stop" or "Selected Route" accordingly and fed the selected
    id, and it shows the route list exactly when it shows neither. *)
Theorem sidebar_shows_one_panel (state : TransitState) :
  reachable state →
  let view := Sidebar.Sidebar state in
  (Sidebar.stop_info view = None ∨ Sidebar.route_info view = None)
  ∧ (Sidebar.route_list view = true
     ↔ Sidebar.stop_info view = None ∧ Sidebar.route_info view = None)
  ∧ (∀ id, Sidebar.stop_info view = Some id →
       selectedStop (selection state) = Some id
       ∧ Sidebar.selection_heading view = Some "Selected Stop")
  ∧ (∀ id, Sidebar.route_info view = Some id →
       selectedRoute (selection state) = Some id
       ∧ Sidebar.selection_heading view = Some "Selected Route").
Proof.
  intros Hreach. cbv zeta. unfold Sidebar.Sidebar. simpl.
  destruct (reachable_exclusive state Hreach) as [Hs|Hr].
  - rewrite Hs. simpl.
    destruct (selectedRoute (selection state)) as [[|c r]|]; simpl;
      repeat split; try done; auto;
      try (by intros [? ?]); try (by intros id [= <-]).
  - rewrite Hr. simpl.
    destruct (selectedStop (selection state)) as [[|c s]|]; simpl;
      repeat split; try done; auto;
      try (by intros [? ?]); try (by intros id [= <-]).
Qed.

Lemma sidebar_shows_one_panel_witness :
  Sidebar.route_info
    (Sidebar.Sidebar
       (transitReducer
          (transitReducer Samples.demo_state (SELECT_ROUTE (Some "HMRL_RED")))
          (SELECT_STOP (Some "HMRL_MGBS")))) = None.
Proof.
  match goal with |- Sidebar.route_info (Sidebar.Sidebar ?st) = None =>
    destruct (proj1 (sidebar_shows_one_panel st
                       ltac:(do 3 constructor; constructor))) as [H|H]
  end; [discriminate H|exact H].
Defined.

(** X18. The info panels get the selected entity or nothing:
    [getSelectedStopData] returns a stop feature of the loaded data whose
    id is the selected stop, and returns null for a non-empty selection
    on loaded data only when no stop feature has that id; the same holds
    of [getSelectedRouteData] and routes. *)
Theorem getSelected_finds_selection (state : TransitState) :
  (∀ stop, getSelectedStopData state = Some stop →
     ∃ d, data state = Some d ∧ stop ∈ features (td_stops d)
          ∧ selectedStop (selection state) = Some (stop_id (stop_properties stop)))
  ∧ (∀ d sel, data state = Some d → selectedStop (selection state) = Some sel →
       Js.truthy sel = true → getSelectedStopData state = None →
       ∀ stop, stop ∈ features (td_stops d) → stop_id (stop_properties stop) ≠ sel)
  ∧ (∀ route, getSelectedRouteData state = Some route →
       ∃ d, data state = Some d ∧ route ∈ features (td_routes d)
            ∧ selectedRoute (selection state) = Some (route_id (properties route)))
  ∧ (∀ d sel, data state = Some d → selectedRoute (selection state) = Some sel →
       Js.truthy sel = true → getSelectedRouteData state = None →
       ∀ route, route ∈ features (td_routes d) → route_id (properties route) ≠ sel).
Proof.
  unfold getSelectedStopData, getSelectedRouteData.
  split; [|split; [|split]].
  - intros stop. destruct (data state) as [d|]; [|done].
    destruct (selectedStop (selection state)) as [sel|]; [|done].
    destruct (Js.truthy sel); [|done].
    intros [Hin Heq%String.eqb_eq]%find_some.
    exists d. rewrite Heq. by rewrite list_elem_of_In.
  - intros d sel -> -> -> Hnone stop Hin%list_elem_of_In Heq.
    pose proof (find_none _ _ Hnone stop Hin) as Hno. simpl in Hno.
    apply String.eqb_neq in Hno. done.
  - intros route. destruct (data state) as [d|]; [|done].
    destruct (selectedRoute (selection state)) as [sel|]; [|done].
    destruct (Js.truthy sel); [|done].
    intros [Hin Heq%String.eqb_eq]%find_some.
    exists d. rewrite Heq. by rewrite list_elem_of_In.
  - intros d sel -> -> -> Hnone route Hin%list_elem_of_In Heq.
    pose proof (find_none _ _ Hnone route Hin) as Hno. simpl in Hno.
    apply String.eqb_neq in Hno. done.
Qed.

Lemma getSelected_finds_selection_witness :
  ∃ d, data Samples.demo_state = Some d.
Proof.
  destruct (proj1 (getSelected_finds_selection
                     (transitReducer Samples.demo_state
                        (SELECT_STOP (Some "HMRL_LBN"))))
              (Samples.demo_stop "HMRL_LBN" "LB Nagar" metro ["HMRL_RED"])
              eq_refl) as (d & Hd & _).
  exists d. exact Hd.
Defined.

(** X19. The route list and the map agree: the check box of a route row
    is checked exactly when [isRouteVisible] holds of the route, the row
    is dimmed exactly when it does not, and the routes drawn on the map
    are the entries of [allRoutesForTypes] whose row is not dimmed, in
    the order of the data (the list itself then sorts its rows by
    name). *)
Theorem route_list_matches_map (state : TransitState) :
  (∀ route,
     RouteList.row_checked (RouteList.route_row state route)
     = isRouteVisible state (route_id (properties route))
     ∧ RouteList.row_dimmed (RouteList.route_row state route)
       = negb (isRouteVisible state (route_id (properties route))))
  ∧ getFilteredRoutes state
    = filter (fun route =>
                RouteList.row_dimmed (RouteList.route_row state route) = false)
             (RouteList.allRoutesForTypes state).
Proof.
  assert (Hrow : ∀ route,
     RouteList.row_checked (RouteList.route_row state route)
     = isRouteVisible state (route_id (properties route))
     ∧ RouteList.row_dimmed (RouteList.route_row state route)
       = negb (isRouteVisible state (route_id (properties route)))).
  { intros route. unfold RouteList.route_row, RouteList.hasRouteFilter. simpl.
    unfold isRouteVisible.
    destruct (size (visibleRoutes state)); simpl; [done|].
    by rewrite orb_false_r, andb_true_r. }
  split; [done|].
  unfold getFilteredRoutes, RouteList.allRoutesForTypes.
  destruct (data state) as [d|]; [|done].
  rewrite list_filter_filter. apply list_filter_iff. intros route.
  destruct (Hrow route) as [_ ->].
  rewrite negb_false_iff, isRouteVisible_true. tauto.
Qed.

Lemma routeColorMap_lookup state first :
  match StopLayer.routeColorMap state !! first with
  | Some c => ∃ d route, data state = Some d ∧ route ∈ features (td_routes d)
                         ∧ route_id (properties route) = first
                         ∧ color (properties route) = c
  | None => ∀ d route, data state = Some d → route ∈ features (td_routes d) →
                       route_id (properties route) ≠ first
  end.
Proof.
  unfold StopLayer.routeColorMap.
  destruct (data state) as [d|]; [|by rewrite lookup_empty].
  assert (Hgen : ∀ (l : list RouteFeature) (m : gmap string string),
    match foldl (fun m route =>
                   <[route_id (properties route):=color (properties route)]> m)
                m l !! first with
    | Some c => m !! first = Some c
                ∨ ∃ route, route ∈ l ∧ route_id (properties route) = first
                           ∧ color (properties route) = c
    | None => m !! first = None
              ∧ ∀ route, route ∈ l → route_id (properties route) ≠ first
    end).
  { induction l as [|x l IH]; intros m; simpl.
    - destruct (m !! first); [by left|]. split; [done|]. by intros ? ?%elem_of_nil.
    - specialize (IH (<[route_id (properties x):=color (properties x)]> m)).
      destruct (foldl _ _ l !! first) as [c|].
      + destruct IH as [Hm|(route & Hin & Hid & Hc)].
        * destruct (decide (route_id (properties x) = first)) as [Heq|Hne].
          -- rewrite Heq, lookup_insert_eq in Hm. right. exists x.
             split; [by left|]. split; congruence.
          -- rewrite lookup_insert_ne in Hm by done. by left.
        * right. exists route. split; [by right|done].
      + destruct IH as [Hm Hl].
        destruct (decide (route_id (properties x) = first)) as [Heq|Hne].
        * by rewrite Heq, lookup_insert_eq in Hm.
        * rewrite lookup_insert_ne in Hm by done. split; [done|].
          intros route [->|Hin]%elem_of_cons; auto. }
  specialize (Hgen (features (td_routes d)) ∅).
  destruct (foldl _ _ _ !! first) as [c|].
  - destruct Hgen as [Hm|(route & ? & ? & ?)]; [by rewrite lookup_empty in Hm|].
    exists d, route. done.
  - destruct Hgen as [_ Hl]. intros d' route [= <-]. apply Hl.
Qed.

(** X20. The colour of a metro stop: a visible metro stop is drawn as a
    square in the colour of a route feature whose id is the first entry
    of the stop's routes, provided there is one and its colour is not
    empty; with no routes on the stop, no such route feature, or an empty
    colour, the square has the default metro colour. *)
Theorem metro_stop_colour
  (state : TransitState) (stop : StopFeature) (isSelected : bool) :
  transit_type (stop_properties stop) = metro →
  ∃ el icon,
    StopLayer.StopMarker stop isSelected true
      (StopLayer.getMetroStopColor state stop) = Some el
    ∧ StopLayer.marker_shape el = StopLayer.IconMarker icon
    ∧ StopLayer.className icon = "metro-square-marker"
    ∧ match routes (stop_properties stop) with
      | [] => StopLayer.icon_color icon = "#E91E63"
      | first :: _ =>
          (∃ d route, data state = Some d ∧ route ∈ features (td_routes d)
                      ∧ route_id (properties route) = first
                      ∧ StopLayer.icon_color icon
                        = if Js.truthy (color (properties route))
                          then color (properties route) else "#E91E63")
          ∨ (StopLayer.icon_color icon = "#E91E63"
             ∧ ∀ d route, data state = Some d → route ∈ features (td_routes d) →
                          route_id (properties route) ≠ first)
      end.
Proof.
  intros Hmetro. unfold StopLayer.StopMarker, StopLayer.getMetroStopColor.
  destruct (point_coordinates (stop_geometry stop)) as [lng lat].
  rewrite Hmetro. simpl.
  destruct (routes (stop_properties stop)) as [|first rest].
  - eexists _, _. repeat split.
  - pose proof (routeColorMap_lookup state first) as Hlook.
    destruct (StopLayer.routeColorMap state !! first) as [c|].
    + destruct Hlook as (d & route & Hd & Hin & Hid & Hc).
      eexists _, _. split; [done|]. split; [done|]. split; [done|].
      left. exists d, route. rewrite Hc. simpl. by destruct c.
    + eexists _, _. split; [done|]. split; [done|]. split; [done|].
      right. done.
Qed.

Lemma metro_stop_colour_witness :
  ∃ el,
    StopLayer.StopMarker
      (Samples.demo_stop "HMRL_LBN" "LB Nagar" metro ["HMRL_RED"]) false true
      (StopLayer.getMetroStopColor Samples.demo_state
         (Samples.demo_stop "HMRL_LBN" "LB Nagar" metro ["HMRL_RED"])) = Some el.
Proof.
  destruct (metro_stop_colour Samples.demo_state
              (Samples.demo_stop "HMRL_LBN" "LB Nagar" metro ["HMRL_RED"])
              false eq_refl) as (el & icon & Hel & _).
  exists el. exact Hel.
Defined.

End Layers.

(* ===================================================================== *)
(** ** components/UI/SearchBox.tsx: results, type buttons, keyboard *)
(* ===================================================================== *)

Section Search.
Import Types TransitContext Props.

Lemma normalizeSearchString_idem s :
  Utils.normalizeSearchString (Utils.normalizeSearchString s)
  = Utils.normalizeSearchString s.
Proof.
  unfold Utils.normalizeSearchString.
  by rewrite toLowerCase_trim, toLowerCase_idem, trim_idem.
Qed.

Lemma matchesSearch_normalized_query text query :
  Utils.matchesSearch text (Js.trim (Js.toLowerCase query))
  = Utils.matchesSearch text query.
Proof.
  unfold Utils.matchesSearch.
  change (Js.trim (Js.toLowerCase query)) with (Utils.normalizeSearchString query).
  by rewrite normalizeSearchString_idem.
Qed.

Lemma search_stops_take active query maxStops stopCount stops :
  SearchBox.search_stops active
    (2 <=? String.length (Utils.normalizeSearchString query))%nat
    (Js.trim (Js.toLowerCase query)) maxStops stopCount stops
  = map SearchBox.stop_result
      (take (maxStops - stopCount) (filter (stop_hit active query) stops)).
Proof.
  revert stopCount. induction stops as [|stop rest IH]; intros stopCount.
  { by rewrite filter_nil, take_nil. }
  cbn [SearchBox.search_stops]. rewrite filter_cons.
  destruct (Nat.leb_spec maxStops stopCount) as [Hfull|Hroom].
  { replace (maxStops - stopCount)%nat with 0%nat by lia. done. }
  rewrite matchesSearch_normalized_query, !IH.
  assert (Hpush : ∀ l : list StopFeature,
            take (maxStops - stopCount) (stop :: l)
            = stop :: take (maxStops - S stopCount) l).
  { intros l. replace (maxStops - stopCount)%nat
      with (S (maxStops - S stopCount)) by lia. done. }
  assert (Htype : match active with
                  | Some t => negb (bool_decide
                                      (transit_type (stop_properties stop) = t))
                  | None => false
                  end = false
                  ↔ match active with
                    | Some t => transit_type (stop_properties stop) = t
                    | None => True
                    end).
  { destruct active as [t|]; [|done].
    rewrite negb_false_iff. apply bool_decide_eq_true. }
  destruct (match active with
            | Some t => negb (bool_decide
                                (transit_type (stop_properties stop) = t))
            | None => false
            end) eqn:Hskip.
  { rewrite decide_False; [done|]. intros [Hty _].
    apply Htype in Hty. done. }
  assert (Hty := proj1 Htype eq_refl).
  destruct (2 <=? String.length (Utils.normalizeSearchString query))%nat eqn:Hq;
    cbn [negb orb].
  - destruct (Utils.matchesSearch (stop_name (stop_properties stop)) query)
      eqn:Hm.
    + rewrite decide_True, Hpush; [done|]. split; [done|]. by intros _.
    + rewrite decide_False; [done|]. intros [_ Hhit].
      specialize (Hhit Hq). congruence.
  - rewrite decide_True, Hpush; [done|]. split; [done|].
    intros Hq'. congruence.
Qed.

Lemma search_routes_take active query maxRoutes routeCount routes :
  SearchBox.search_routes active
    (2 <=? String.length (Utils.normalizeSearchString query))%nat
    (Js.trim (Js.toLowerCase query)) maxRoutes routeCount routes
  = map SearchBox.route_result
      (take (maxRoutes - routeCount) (filter (route_hit active query) routes)).
Proof.
  revert routeCount. induction routes as [|route rest IH]; intros routeCount.
  { by rewrite filter_nil, take_nil. }
  cbn [SearchBox.search_routes]. rewrite filter_cons.
  destruct (Nat.leb_spec maxRoutes routeCount) as [Hfull|Hroom].
  { replace (maxRoutes - routeCount)%nat with 0%nat by lia. done. }
  rewrite !matchesSearch_normalized_query, !IH.
  assert (Hpush : ∀ l : list RouteFeature,
            take (maxRoutes - routeCount) (route :: l)
            = route :: take (maxRoutes - S routeCount) l).
  { intros l. replace (maxRoutes - routeCount)%nat
      with (S (maxRoutes - S routeCount)) by lia. done. }
  assert (Htype : match active with
                  | Some t => negb (String.eqb (type_name (properties route))
                                               (TransitType_str t))
                  | None => false
                  end = false
                  ↔ match active with
                    | Some t => type_name (properties route) = TransitType_str t
                    | None => True
                    end).
  { destruct active as [t|]; [|done].
    rewrite negb_false_iff. apply String.eqb_eq. }
  destruct (match active with
            | Some t => negb (String.eqb (type_name (properties route))
                                         (TransitType_str t))
            | None => false
            end) eqn:Hskip.
  { rewrite decide_False; [done|]. intros [Hty _].
    apply Htype in Hty. done. }
  assert (Hty := proj1 Htype eq_refl).
  destruct (2 <=? String.length (Utils.normalizeSearchString query))%nat eqn:Hq;
    cbn [negb orb].
  - destruct (Utils.matchesSearch (name (properties route)) query
              || Utils.matchesSearch (short_name (properties route)) query
              || Utils.matchesSearch (long_name (properties route)) query)
      eqn:Hm.
    + rewrite decide_True, Hpush; [done|]. split; [done|]. intros _.
      apply orb_true_iff in Hm as [Hm|Hm]; [|auto].
      apply orb_true_iff in Hm as [Hm|Hm]; auto.
    + rewrite decide_False; [done|]. intros [_ Hhit].
      apply orb_false_iff in Hm as [Hm H3].
      apply orb_false_iff in Hm as [H1 H2].
      destruct (Hhit Hq) as [?|[?|?]]; congruence.
  - rewrite decide_True, Hpush; [done|]. split; [done|].
    intros Hq'. congruence.
Qed.

(** X21. What the search box lists: on loaded data the results are the
    first hits among the stops, in data order and capped at 8 (20 in the
    stops category), followed by the first hits among the routes, capped
    the same way; a hit is of the active transit type, if one is active,
    and matches the query by name, unless the query has fewer than two
    characters once trimmed, in which case every entry of the type is a
    hit.  There are never more than 20 results. *)
Theorem search_results_are_first_hits
  (state : TransitState) (d : TransitData) (query : string)
  (category : SearchBox.SearchCategory) :
  data state = Some d →
  let active := SearchBox.activeTransitFilter (filters state) in
  SearchBox.results state query category
  = (map SearchBox.stop_result
       (take (stop_cap category)
             (filter (stop_hit active query) (features (td_stops d))))
     ++ map SearchBox.route_result
          (take (route_cap category)
                (filter (route_hit active query) (features (td_routes d)))))%list
  ∧ (length (SearchBox.results state query category) <= 20)%nat.
Proof.
  intros Hdata. cbv zeta.
  assert (Heq : SearchBox.results state query category
    = (map SearchBox.stop_result
         (take (stop_cap category)
               (filter (stop_hit (SearchBox.activeTransitFilter (filters state)) query)
                       (features (td_stops d))))
       ++ map SearchBox.route_result
            (take (route_cap category)
                  (filter (route_hit (SearchBox.activeTransitFilter (filters state)) query)
                          (features (td_routes d)))))%list).
  { unfold SearchBox.results. rewrite Hdata.
    change (String.length (Js.trim (Js.toLowerCase query)))
      with (String.length (Utils.normalizeSearchString query)).
    destruct category; cbn [stop_cap route_cap];
      rewrite ?search_stops_take, ?search_routes_take, ?take_0, ?Nat.sub_0_r.
    all: done. }
  split; [exact Heq|].
  rewrite Heq, length_app, !length_map, !length_take.
  destruct category; cbn [stop_cap route_cap]; lia.
Qed.

Lemma search_results_are_first_hits_witness :
  (length (SearchBox.results Samples.demo_state "mg" SearchBox.CatAll) <= 20)%nat.
Proof.
  exact (proj2 (search_results_are_first_hits Samples.demo_state
                  Samples.demo_data "mg" SearchBox.CatAll eq_refl)).
Defined.

Example search_finds_MGBS :
  map SearchBox.result_id
      (SearchBox.results Samples.demo_state " MG" SearchBox.CatAll)
  = ["HMRL_MGBS"].
Proof. by vm_compute. Qed.

(** X22. The transit-type buttons work like radio buttons: clicking the
    button of a type that is not the active one leaves exactly that type
    enabled; clicking the active type's button, or the 'all' button,
    enables all three types; nothing else of the state changes, and the
    active filter afterwards is the clicked type, or 'all'. *)
Theorem type_button_selects (state : TransitState) (type : option TransitType) :
  let state' :=
    fold_left transitReducer
      (SearchBox.type_button_click (filters state) type) state in
  let target :=
    match type with
    | None => all_on
    | Some t =>
        if bool_decide (SearchBox.activeTransitFilter (filters state) = Some t)
        then all_on else only t
    end in
  state' = {| data := data state; loading := loading state;
              error := error state; filters := target;
              selection := selection state;
              sidebarOpen := sidebarOpen state;
              visibleRoutes := visibleRoutes state |}
  ∧ SearchBox.activeTransitFilter (filters state')
    = match type with
      | None => None
      | Some t =>
          if bool_decide (SearchBox.activeTransitFilter (filters state) = Some t)
          then None else Some t
      end.
Proof.
  destruct state as [d l e [m r b] sel open vis].
  cbv zeta. destruct type as [[]|], m, r, b; by vm_compute.
Qed.

Lemma press_down_index results box k :
  SearchBox.isOpen box = true →
  results ≠ [] →
  -1 <= SearchBox.selectedIndex box < Z.of_nat (length results) →
  let box' := SearchBox.press_keys results box (repeat SearchBox.ArrowDown k) in
  SearchBox.selectedIndex box'
  = Z.min (SearchBox.selectedIndex box + Z.of_nat k) (Z.of_nat (length results) - 1)
  ∧ SearchBox.isOpen box' = true
  ∧ SearchBox.query box' = SearchBox.query box.
Proof.
  intros Hopen Hne. cbv zeta. revert box Hopen.
  assert (Hlen : Z.of_nat (length results) ≠ 0) by by destruct results.
  induction k as [|k IH]; intros box Hopen Hidx.
  { simpl. split; [lia|done]. }
  cbn [repeat]. unfold SearchBox.press_keys in *. cbn [fold_left].
  set (next := fst (SearchBox.handleKeyDown results box SearchBox.ArrowDown)).
  assert (Hnext : SearchBox.isOpen next = true
                  ∧ SearchBox.query next = SearchBox.query box
                  ∧ SearchBox.selectedIndex next
                    = Z.min (SearchBox.selectedIndex box + 1)
                            (Z.of_nat (length results) - 1)).
  { unfold next, SearchBox.handleKeyDown. rewrite Hopen.
    apply Z.eqb_neq in Hlen. rewrite Hlen. simpl.
    split; [done|]. split; [done|].
    destruct (Z.ltb_spec (SearchBox.selectedIndex box)
                (Z.of_nat (length results) - 1)); lia. }
  destruct Hnext as (Hopen' & Hquery' & Hidx').
  destruct (IH next Hopen' ltac:(lia)) as (Hi & Ho & Hq).
  rewrite Hi, Ho, Hq, Hidx'. split; [lia|done].
Qed.

(** X23. Keyboard selection in the search box: whatever keys are
    pressed, the selected index stays between -1 and the last result;
    from a freshly opened box, pressing ArrowDown k+1 times and then
    Enter dispatches the selection of result number k (the last one, if
    there are fewer), as a stop or as a route, and closes and clears
    the box. *)
Theorem keyboard_selects_result
  (results : list SearchBox.SearchResult) (box : SearchBox.BoxState) (k : nat) :
  SearchBox.isOpen box = true →
  SearchBox.selectedIndex box = -1 →
  results ≠ [] →
  (∀ keys b,
     -1 <= SearchBox.selectedIndex b < Z.of_nat (length results) →
     -1 <= SearchBox.selectedIndex (SearchBox.press_keys results b keys)
        < Z.of_nat (length results))
  ∧ ∃ result,
      results !! Nat.min k (length results - 1) = Some result
      ∧ SearchBox.handleKeyDown results
          (SearchBox.press_keys results box (repeat SearchBox.ArrowDown (S k)))
          SearchBox.Enter
        = ({| SearchBox.query := ""; SearchBox.isOpen := false;
              SearchBox.selectedIndex := -1 |},
           Some (match SearchBox.result_type result with
                 | SearchBox.ResultStop => SELECT_STOP (Some (SearchBox.result_id result))
                 | SearchBox.ResultRoute => SELECT_ROUTE (Some (SearchBox.result_id result))
                 end)).
Proof.
  intros Hopen Hidx Hne. split.
  - assert (Hlen : Z.of_nat (length results) ≠ 0) by by destruct results.
    intros keys. unfold SearchBox.press_keys.
    induction keys as [|key keys IH]; intros b Hb; [done|].
    cbn [fold_left]. apply IH.
    unfold SearchBox.handleKeyDown.
    destruct (negb (SearchBox.isOpen b) || (Z.of_nat (length results) =? 0));
      [done|].
    destruct key; simpl; try done.
    + destruct (Z.ltb_spec (SearchBox.selectedIndex b)
                  (Z.of_nat (length results) - 1)); lia.
    + destruct (Z.ltb_spec 0 (SearchBox.selectedIndex b)); lia.
    + destruct ((0 <=? SearchBox.selectedIndex b)
                && (SearchBox.selectedIndex b <? Z.of_nat (length results)));
        [|done].
      destruct (results !! Z.to_nat (SearchBox.selectedIndex b)); simpl; [lia|done].
    + lia.
  - assert (Hlen : (0 < length results)%nat) by (destruct results; [done|simpl; lia]).
    destruct (press_down_index results box (S k) Hopen Hne ltac:(lia))
      as (Hi & Ho & Hq).
    set (box' := SearchBox.press_keys results box (repeat SearchBox.ArrowDown (S k)))
      in *.
    assert (Hpos : SearchBox.selectedIndex box'
                   = Z.of_nat (Nat.min k (length results - 1))) by lia.
    destruct (lookup_lt_is_Some_2 results (Nat.min k (length results - 1))
                ltac:(lia)) as [result Hresult].
    exists result. split; [done|].
    unfold SearchBox.handleKeyDown. rewrite Ho. simpl.
    replace (Z.of_nat (length results) =? 0) with false
      by (symmetry; apply Z.eqb_neq; lia).
    rewrite Hpos, Nat2Z.id, Hresult.
    replace ((0 <=? Z.of_nat (Nat.min k (length results - 1)))
             && (Z.of_nat (Nat.min k (length results - 1))
                 <? Z.of_nat (length results))) with true; [done|].
    symmetry. apply andb_true_iff. split; [apply Z.leb_le|apply Z.ltb_lt]; lia.
Qed.

Lemma keyboard_selects_result_witness :
  ∃ result,
    SearchBox.results Samples.demo_state "" SearchBox.CatAll !! 1%nat = Some result.
Proof.
  destruct (proj2 (keyboard_selects_result
                     (SearchBox.results Samples.demo_state "" SearchBox.CatAll)
                     {| SearchBox.query := ""; SearchBox.isOpen := true;
                        SearchBox.selectedIndex := -1 |} 1
                     eq_refl eq_refl ltac:(by vm_compute)))
    as (result & Hresult & _).
  exists result. exact Hresult.
Defined.

End Search.
